(** * Invoice extraction and quality control: a shallow embedding

    The development follows the Python package [invoice_qc]:

    - [Py]        the Python values the code computes with (binary64 floats,
                  text, calendar dates, JSON-shaped values);
    - [Interpreters] the interpreter's text operations on ASCII text, with
                  the builtin [sum] of CPython before and from 3.12;
    - [Schema]    schema.py: the pydantic models [LineItem] and [Invoice];
    - [Validator] validator.py: [InvoiceValidator] with its duplicate
                  tracking set threaded explicitly;
    - [BatchSpec] reference points the batch loop is compared with;
    - [Patterns]  utils/patterns.py: the ordered first-match-wins extractors;
    - [Extractor] extractor.py: [parse_date] and [extract_invoice_from_text];
    - [Samples]   records and patterns the statements are evaluated on.

    Behaviour of third-party code that the package calls (pydantic's lax
    coercions and error rendering, the regular-expression engine, Python's
    [float(str)], dateutil's parser) and what the interpreter computes from
    the Unicode character tables ([len], [str.upper], [str.strip], slicing)
    is taken as an interface: a type class whose instance is a parameter
    of the definitions that call it. *)

From Stdlib Require Import ZArith String Ascii List Bool Lia DecimalString.
From Stdlib Require Import Floats.SpecFloat.
From stdpp Require Import gmap strings list.

Local Open Scope Z_scope.

(** ** Python values *)

Module Py.

(** *** Floats: IEEE 754 binary64, round to nearest even *)

Definition prec : Z := 53.
Definition emax : Z := 1024.

Definition float : Type := spec_float.

Definition fadd : float -> float -> float := SFadd prec emax.
Definition fsub : float -> float -> float := SFsub prec emax.
Definition fmul : float -> float -> float := SFmul prec emax.
Definition fdiv : float -> float -> float := SFdiv prec emax.
Definition fabs : float -> float := SFabs.

(** [x < y], [x <= y], [x > y], [x >= y], [x == y]; every comparison with
    nan is false. *)
Definition flt (x y : float) : bool := SFltb x y.
Definition fle (x y : float) : bool := SFleb x y.
Definition fgt (x y : float) : bool := SFltb y x.
Definition fge (x y : float) : bool := SFleb y x.
Definition feq (x y : float) : bool := SFeqb x y.

(** [float(z)] for an integer [z]. *)
Definition float_of_Z (z : Z) : float := binary_normalize prec emax z 0 false.

(** The float a decimal literal [n / 10^k] denotes: the double nearest to the
    quotient (division of two exactly represented integers is correctly
    rounded). *)
Definition decimal (n : Z) (k : nat) : float :=
  fdiv (float_of_Z n) (float_of_Z (10 ^ Z.of_nat k)).

Definition zero : float := S754_zero false.

(** Truthiness of a float: false exactly for the two zeros. *)
Definition float_truthy (x : float) : bool := negb (feq x zero).

Definition is_finite (x : float) : bool :=
  match x with
  | S754_zero _ | S754_finite _ _ _ => true
  | S754_infinity _ | S754_nan => false
  end.

(** The builtin [sum] over floats, up to CPython 3.11: start at the integer
    [0] and add from left to right. *)
Definition sum_plain (xs : list float) : float := fold_left fadd xs zero.

(** The builtin [sum] over floats from CPython 3.12 on: the first float is
    added to the integer [0]; from the second on, the running sum
    [f_result] comes with Neumaier's compensation term [c], which is added
    at the end when it is finite and not zero. *)
Fixpoint neumaier (f_result c : float) (xs : list float) : float * float :=
  match xs with
  | [] => (f_result, c)
  | x :: rest =>
      let t := fadd f_result x in
      let c :=
        if fge (fabs f_result) (fabs x)
        then fadd c (fadd (fsub f_result t) x)
        else fadd c (fadd (fsub x t) f_result) in
      neumaier t c rest
  end.

Definition sum_compensated (xs : list float) : float :=
  match xs with
  | [] => zero
  | x :: rest =>
      let '(f_result, c) := neumaier (fadd zero x) zero rest in
      if float_truthy c && is_finite c then fadd f_result c else f_result
  end.

(** *** Text

    A [str] is held as its UTF-8 encoding, so that equality, concatenation
    and the search for an ASCII character are those of the bytes. *)

Definition str_of_N (n : N) : string := NilZero.string_of_uint (N.to_uint n).

Fixpoint zeros (n : nat) : string :=
  match n with
  | O => EmptyString
  | S n' => String "0" (zeros n')
  end.

(** Left padding with zeros up to [width], as the format specs [04d] and
    [02d] do. *)
Definition zfill (width : nat) (s : string) : string :=
  zeros (width - String.length s) +:+ s.

(** [format(x, ".2f")]: the exact binary value rounded half-to-even to two
    decimals. *)
Definition round_half_even_div (a : Z) (b : Z) : Z :=
  let q := a / b in
  let r := a mod b in
  match 2 * r ?= b with
  | Lt => q
  | Gt => q + 1
  | Eq => if Z.even q then q else q + 1
  end.

Definition cents (m : positive) (e : Z) : Z :=
  match e with
  | Zneg p => round_half_even_div (Zpos m * 100) (2 ^ Zpos p)
  | _ => Zpos m * 100 * 2 ^ e
  end.

Definition sign_str (s : bool) : string := if s then "-" else "".

Definition format_2f (x : float) : string :=
  match x with
  | S754_nan => "nan"
  | S754_infinity s => sign_str s +:+ "inf"
  | S754_zero s => sign_str s +:+ "0.00"
  | S754_finite s m e =>
      let c := cents m e in
      sign_str s +:+ str_of_N (Z.to_N (c / 100)) +:+ "." +:+
      zfill 2 (str_of_N (Z.to_N (c mod 100)))
  end.

(** [c in s] for a one-character [c]. *)
Fixpoint contains (c : ascii) (s : string) : bool :=
  match s with
  | EmptyString => false
  | String a s' => Ascii.eqb a c || contains c s'
  end.

(** [s.split(sep)[0]] for a one-character separator: the text before the
    first [sep], all of [s] when there is none. *)
Fixpoint split_head (sep : ascii) (s : string) : string :=
  match s with
  | EmptyString => EmptyString
  | String a s' => if Ascii.eqb a sep then EmptyString else String a (split_head sep s')
  end.

(** [s.replace(c, '')] for a one-character [c]. *)
Fixpoint remove_char (c : ascii) (s : string) : string :=
  match s with
  | EmptyString => EmptyString
  | String a s' => if Ascii.eqb a c then remove_char c s' else String a (remove_char c s')
  end.

(** [s.startswith(p)] *)
Fixpoint startswith (p s : string) : bool :=
  match p, s with
  | EmptyString, _ => true
  | String a p', String b s' => Ascii.eqb a b && startswith p' s'
  | String _ _, EmptyString => false
  end.

(** *** The interpreter

    What depends on the Unicode character tables or on the version of the
    interpreter: [len(s)], which counts characters; [s.upper()] and
    [s.strip()], which follow the Unicode case mappings and whitespace;
    [s[n:]], which drops [n] characters; and whether the builtin [sum]
    carries the compensation term (CPython 3.12 and later). *)
Class Interpreter : Type := {
  len : string -> nat;
  upper : string -> string;
  strip : string -> string;
  slice_from : nat -> string -> string;
  compensated_sum : bool
}.

(** The builtin [sum] over a list of floats. *)
Definition sum {I : Interpreter} (xs : list float) : float :=
  if compensated_sum then sum_compensated xs else sum_plain xs.

(** *** Calendar dates *)

Record date : Type := Date { year : Z; month : Z; day : Z }.

(** [d1 < d2] on [datetime.date]. *)
Definition date_lt (d1 d2 : date) : bool :=
  (year d1 <? year d2) ||
  ((year d1 =? year d2) &&
   ((month d1 <? month d2) || ((month d1 =? month d2) && (day d1 <? day d2)))).

(** [str(d)], which is [d.isoformat()]. *)
Definition isoformat (d : date) : string :=
  zfill 4 (str_of_N (Z.to_N (year d))) +:+ "-" +:+
  zfill 2 (str_of_N (Z.to_N (month d))) +:+ "-" +:+
  zfill 2 (str_of_N (Z.to_N (day d))).

(** *** JSON-shaped values: what a [Dict[str, Any]] record holds *)

#[warnings="-register-all"] Inductive value : Type :=
  | VNone
  | VBool (b : bool)
  | VInt (z : Z)
  | VFloat (f : float)
  | VStr (s : string)
  | VList (l : list value)
  | VDict (d : gmap string value).

Definition dict : Type := gmap string value.

(** [d.get(k, default)] *)
Definition get (d : gmap string value) (k : string) (dflt : value) : value :=
  default dflt (d !! k).

End Py.

(** ** The interpreter on ASCII text

    On text made of ASCII characters a character is a byte, whitespace is
    the characters 9 to 13 and 28 to 32, and upper-casing touches the
    letters a to z. The two instances agree with the interpreter on such
    text only; they differ in the builtin [sum]. They are what the
    statements are evaluated with on sample inputs. *)

Module Interpreters.
Import Py.

(** The ASCII characters that are whitespace. *)
Definition ascii_space (c : ascii) : bool :=
  let n := nat_of_ascii c in
  ((9 <=? n)%nat && (n <=? 13)%nat) || ((28 <=? n)%nat && (n <=? 32)%nat).

Fixpoint ascii_lstrip (s : string) : string :=
  match s with
  | EmptyString => EmptyString
  | String c s' => if ascii_space c then ascii_lstrip s' else s
  end.

Fixpoint str_rev_onto (s acc : string) : string :=
  match s with
  | EmptyString => acc
  | String c s' => str_rev_onto s' (String c acc)
  end.

Definition str_rev (s : string) : string := str_rev_onto s EmptyString.

(** [s.strip()] on ASCII text. *)
Definition ascii_strip (s : string) : string :=
  str_rev (ascii_lstrip (str_rev (ascii_lstrip s))).

Definition upper_ascii (c : ascii) : ascii :=
  let n := nat_of_ascii c in
  if ((97 <=? n)%nat && (n <=? 122)%nat)%bool then ascii_of_nat (n - 32) else c.

(** [s.upper()] on ASCII text. *)
Fixpoint ascii_upper (s : string) : string :=
  match s with
  | EmptyString => EmptyString
  | String c s' => String (upper_ascii c) (ascii_upper s')
  end.

(** [s[n:]] on ASCII text. *)
Fixpoint str_drop (n : nat) (s : string) : string :=
  match n, s with
  | O, _ => s
  | S n', String _ s' => str_drop n' s'
  | S _, EmptyString => EmptyString
  end.

#[export] Instance CPython311 : Interpreter := {
  len := String.length;
  upper := ascii_upper;
  strip := ascii_strip;
  slice_from := str_drop;
  compensated_sum := false
}.

#[export] Instance CPython312 : Interpreter := {
  len := String.length;
  upper := ascii_upper;
  strip := ascii_strip;
  slice_from := str_drop;
  compensated_sum := true
}.

End Interpreters.

(** ** schema.py *)

Module Schema.
Import Py.

Record LineItem : Type := mkLineItem {
  description : string;
  quantity : float;
  unit_price : float;
  line_total : float
}.

(** Attributes of an [Invoice] object as validator.py reads them; the
    validator tests [invoice_date] against [None], so the attribute is an
    option here and [Invoice_new] is shown to fill it. *)
Record Invoice : Type := mkInvoice {
  invoice_number : string;
  invoice_date : option date;
  due_date : option date;
  seller_name : string;
  seller_address : option string;
  seller_tax_id : option string;
  buyer_name : string;
  buyer_address : option string;
  buyer_tax_id : option string;
  currency : string;
  net_total : float;
  tax_amount : float;
  gross_total : float;
  line_items : list LineItem
}.

(** What a pydantic [ValidationError] reports, one entry per failed
    constraint. *)
Inductive schema_error : Type :=
  | Field_required (field : string)
  | Invalid_input (field : string)
  | String_too_short (field : string)
  | Not_greater_equal (field : string)
  | Currency_not_allowed (v : string)
  | Line_total_mismatch (total expected : float)
  | Due_date_before_invoice_date (due issued : date)
  | In_line_item (index : nat) (e : schema_error).

(** The part of pydantic that schema.py relies on without spelling it out:
    the lax coercion of an input value to [str], [float] and [date], and the
    text of a [ValidationError]. *)
Class Pydantic : Type := {
  lax_str : value -> option string;
  lax_float : value -> option float;
  lax_date : value -> option date;
  str_validation_error : list schema_error -> string
}.

(** Outcome of building a model: the object, or the collected errors. *)
Inductive result (A : Type) : Type :=
  | Ok (a : A)
  | Invalid (errors : list schema_error).
Arguments Ok {A} a.
Arguments Invalid {A} errors.

(** Field validators run independently and their errors are collected. *)
Definition ap {A B : Type} (f : result (A -> B)) (x : result A) : result B :=
  match f, x with
  | Ok g, Ok a => Ok (g a)
  | Ok _, Invalid e => Invalid e
  | Invalid e, Ok _ => Invalid e
  | Invalid e1, Invalid e2 => Invalid (e1 ++ e2)
  end.

Definition and_then {A B : Type} (x : result A) (k : A -> result B) : result B :=
  match x with
  | Ok a => k a
  | Invalid e => Invalid e
  end.

Notation "f <*> x" := (ap f x) (at level 61, left associativity).

Definition is_ok {A : Type} (r : result A) : bool :=
  match r with Ok _ => true | Invalid _ => false end.

Section Models.
Context {P : Pydantic} {I : Interpreter}.

(** [name: T = Field(...)]: the key has to be there and coerce to [T]. *)
Definition required {A : Type} (coerce : value -> option A) (d : dict) (k : string)
  : result A :=
  match d !! k with
  | None => Invalid [Field_required k]
  | Some v =>
      match coerce v with
      | Some a => Ok a
      | None => Invalid [Invalid_input k]
      end
  end.

(** [name: Optional[T] = Field(None, ...)] *)
Definition optional {A : Type} (coerce : value -> option A) (d : dict) (k : string)
  : result (option A) :=
  match d !! k with
  | None => Ok None
  | Some VNone => Ok None
  | Some v =>
      match coerce v with
      | Some a => Ok (Some a)
      | None => Invalid [Invalid_input k]
      end
  end.

(** [min_length=1] *)
Definition min_length_1 (k : string) (s : string) : result string :=
  match s with
  | EmptyString => Invalid [String_too_short k]
  | _ => Ok s
  end.

(** [ge=0]: the value is kept when [x >= 0] holds, so a nan is rejected
    like a number below the bound. *)
Definition ge_0 (k : string) (x : float) : result float :=
  if fge x zero then Ok x else Invalid [Not_greater_equal k].

Definition tolerance : float := decimal 1 2.

(** [LineItem.validate_line_total] *)
Definition validate_line_total (self : LineItem) : result LineItem :=
  let expected := fmul (quantity self) (unit_price self) in
  if fgt (fabs (fsub (line_total self) expected)) tolerance
  then Invalid [Line_total_mismatch (line_total self) expected]
  else Ok self.

Definition LineItem_fields (d : dict) : result LineItem :=
  Ok mkLineItem
    <*> required lax_str d "description"
    <*> and_then (required lax_float d "quantity") (ge_0 "quantity")
    <*> and_then (required lax_float d "unit_price") (ge_0 "unit_price")
    <*> and_then (required lax_float d "line_total") (ge_0 "line_total").

(** The constructor call of [LineItem] on the keyword mapping [d]. *)
Definition LineItem_new (d : dict) : result LineItem :=
  and_then (LineItem_fields d) validate_line_total.

Definition allowed : list string := ["EUR"; "USD"; "INR"].

(** [Invoice.validate_currency] *)
Definition validate_currency (v : string) : result string :=
  if bool_decide (upper v ∈ allowed) then Ok (upper v)
  else Invalid [Currency_not_allowed v].

(** [Invoice.validate_due_date] *)
Definition validate_due_date (self : Invoice) : result Invoice :=
  match due_date self, invoice_date self with
  | Some due, Some issued =>
      if date_lt due issued
      then Invalid [Due_date_before_invoice_date due issued]
      else Ok self
  | _, _ => Ok self
  end.

Definition at_index (i : nat) (r : result LineItem) : result LineItem :=
  match r with
  | Ok li => Ok li
  | Invalid es => Invalid (map (In_line_item i) es)
  end.

(** One element of [line_items]: a mapping is built into a [LineItem]. *)
Definition line_item_at (i : nat) (v : value) : result LineItem :=
  match v with
  | VDict d => at_index i (LineItem_new d)
  | _ => Invalid [In_line_item i (Invalid_input "line_items")]
  end.

Fixpoint line_items_from (i : nat) (vs : list value) : result (list LineItem) :=
  match vs with
  | [] => Ok []
  | v :: vs' => Ok cons <*> line_item_at i v <*> line_items_from (S i) vs'
  end.

(** [line_items: List[LineItem] = Field(default_factory=list)] *)
Definition line_items_field (d : dict) : result (list LineItem) :=
  match d !! "line_items" with
  | None => Ok []
  | Some (VList vs) => line_items_from 0 vs
  | Some _ => Invalid [Invalid_input "line_items"]
  end.

Definition Invoice_fields (d : dict) : result Invoice :=
  Ok mkInvoice
    <*> and_then (required lax_str d "invoice_number") (min_length_1 "invoice_number")
    <*> and_then (required lax_date d "invoice_date") (fun x => Ok (Some x))
    <*> optional lax_date d "due_date"
    <*> and_then (required lax_str d "seller_name") (min_length_1 "seller_name")
    <*> optional lax_str d "seller_address"
    <*> optional lax_str d "seller_tax_id"
    <*> and_then (required lax_str d "buyer_name") (min_length_1 "buyer_name")
    <*> optional lax_str d "buyer_address"
    <*> optional lax_str d "buyer_tax_id"
    <*> and_then (required lax_str d "currency") validate_currency
    <*> and_then (required lax_float d "net_total") (ge_0 "net_total")
    <*> and_then (required lax_float d "tax_amount") (ge_0 "tax_amount")
    <*> and_then (required lax_float d "gross_total") (ge_0 "gross_total")
    <*> line_items_field d.

(** The constructor call of [Invoice] on the keyword mapping [d]: [Ok] is
    the constructed object, [Invalid] the raised [ValidationError]. *)
Definition Invoice_new (d : dict) : result Invoice :=
  and_then (Invoice_fields d) validate_due_date.

End Models.

(** A sample of the coercions, on values decoded from JSON: text for
    [str]; a float, an integer within the range of the floats or a plain
    decimal numeral for [float]; an ISO [YYYY-MM-DD] text for [date]. What
    else pydantic coerces is not part of the sample. *)
Definition digit_of (c : ascii) : option Z :=
  let n := nat_of_ascii c in
  if ((48 <=? n)%nat && (n <=? 57)%nat)%bool then Some (Z.of_nat (n - 48)) else None.

Fixpoint digits_value (acc : Z) (cs : list ascii) : option Z :=
  match cs with
  | [] => Some acc
  | c :: cs' =>
      match digit_of c with
      | Some v => digits_value (10 * acc + v) cs'
      | None => None
      end
  end.

Definition is_leap (y : Z) : bool :=
  ((y mod 4 =? 0) && negb (y mod 100 =? 0)) || (y mod 400 =? 0).

Definition days_in_month (y m : Z) : Z :=
  if m =? 2 then (if is_leap y then 29 else 28)
  else if (m =? 4) || (m =? 6) || (m =? 9) || (m =? 11) then 30
  else 31.

Definition valid_date (y m d : Z) : bool :=
  (1 <=? y) && (y <=? 9999) && (1 <=? m) && (m <=? 12) &&
  (1 <=? d) && (d <=? days_in_month y m).

Definition date_of_iso (s : string) : option date :=
  match list_ascii_of_string s with
  | [y1; y2; y3; y4; "-"%char; m1; m2; "-"%char; d1; d2] =>
      match digits_value 0 [y1; y2; y3; y4], digits_value 0 [m1; m2],
            digits_value 0 [d1; d2] with
      | Some y, Some m, Some d =>
          if valid_date y m d then Some (Date y m d) else None
      | _, _, _ => None
      end
  | _ => None
  end.

Definition json_str (v : value) : option string :=
  match v with VStr s => Some s | _ => None end.

(** Plain decimal numerals: [12], [12.5], [.5], [12.]. *)
Fixpoint read_decimal (s : string) (acc : Z) (frac : option nat) (any : bool)
  : option (Z * nat) :=
  match s with
  | EmptyString => if any then Some (acc, default O frac) else None
  | String c s' =>
      if Ascii.eqb c "." then
        match frac with
        | None => read_decimal s' acc (Some O) any
        | Some _ => None
        end
      else
        match digit_of c with
        | Some v => read_decimal s' (10 * acc + v) (S <$> frac) true
        | None => None
        end
  end.

Definition plain_float_of_str (s : string) : option float :=
  match read_decimal s 0 None false with
  | Some (n, k) => Some (decimal n k)
  | None => None
  end.

Definition json_float (v : value) : option float :=
  match v with
  | VFloat f => Some f
  | VInt z => if is_finite (float_of_Z z) then Some (float_of_Z z) else None
  | VStr s => plain_float_of_str s
  | _ => None
  end.

Definition json_date (v : value) : option date :=
  match v with VStr s => date_of_iso s | _ => None end.

(** A rendering of the error list that names the first broken constraint. *)
Fixpoint error_name (e : schema_error) : string :=
  match e with
  | Field_required f => f +:+ ": Field required"
  | Invalid_input f => f +:+ ": Input should be valid"
  | String_too_short f => f +:+ ": String should have at least 1 character"
  | Not_greater_equal f => f +:+ ": Input should be greater than or equal to 0"
  | Currency_not_allowed v => "currency: Value error, Currency must be one of the allowed, got " +:+ v
  | Line_total_mismatch _ _ => "Value error, line_total does not match quantity * unit_price"
  | Due_date_before_invoice_date due issued =>
      "Value error, due_date " +:+ isoformat due +:+ " must be >= invoice_date " +:+ isoformat issued
  | In_line_item _ e' => "line_items." +:+ error_name e'
  end.

Definition json_str_validation_error (es : list schema_error) : string :=
  str_of_N (N.of_nat (List.length es)) +:+ " validation error for Invoice" +:+
  match es with
  | [] => EmptyString
  | e :: _ => ": " +:+ error_name e
  end.

#[export] Instance Json : Pydantic := {
  lax_str := json_str;
  lax_float := json_float;
  lax_date := json_date;
  str_validation_error := json_str_validation_error
}.

End Schema.

(** ** validator.py *)

Module Validator.
Import Py Schema.

(** [ValidationResult]: the mapping [validate] returns. *)
Record ValidationResult : Type := mkResult {
  invoice_id : value;
  is_valid : bool;
  errors : list string
}.

(** A duplicate key: [(invoice_number, seller_name, invoice date as text or
    None)]. *)
Definition duplicate_key : Type := string * string * option string.

(** [Counter()] *)
Definition counter_incr (c : gmap string nat) (k : string) : gmap string nat :=
  <[k := S (default O (c !! k))]> c.

Record Summary : Type := mkSummary {
  total_invoices : nat;
  valid_invoices : nat;
  invalid_invoices : nat;
  error_counts : gmap string nat
}.

Record BatchReport : Type := mkReport {
  results : list ValidationResult;
  summary : Summary
}.

Section WithPydantic.
Context {P : Pydantic} {I : Interpreter}.

(** [str(x)] inside an f-string for an optional date. *)
Definition str_opt_date (d : option date) : string :=
  match d with
  | Some x => isoformat x
  | None => "None"
  end.

(** [not s or len(s.strip()) == 0] *)
Definition blank (s : string) : bool :=
  match s with
  | EmptyString => true
  | _ => (len (strip s) =? 0)%nat
  end.

Definition _validate_completeness (invoice : Invoice) : list string :=
  (if blank (invoice_number invoice) then ["missing_field: invoice_number"] else []) ++
  (match invoice_date invoice with
   | None => ["missing_field: invoice_date"]
   | Some _ => []
   end) ++
  (if blank (seller_name invoice) then ["missing_field: seller_name"] else []) ++
  (if blank (buyer_name invoice) then ["missing_field: buyer_name"] else []).

Definition _validate_format (invoice : Invoice) : list string :=
  (if flt (net_total invoice) zero then ["format_error: net_total must be >= 0"] else []) ++
  (if flt (tax_amount invoice) zero then ["format_error: tax_amount must be >= 0"] else []) ++
  (if flt (gross_total invoice) zero then ["format_error: gross_total must be >= 0"] else []).

Definition _validate_business_rules (invoice : Invoice) : list string :=
  let line_items_sum := sum (map line_total (line_items invoice)) in
  let tolerance := decimal 1 2 in
  (if fgt (fabs (fsub line_items_sum (net_total invoice))) tolerance
   then ["business_rule_failed: totals_mismatch " +:+
         "(line_items_sum=" +:+ format_2f line_items_sum +:+
         ", net_total=" +:+ format_2f (net_total invoice) +:+ ")"]
   else []) ++
  let expected_gross := fadd (net_total invoice) (tax_amount invoice) in
  (if fgt (fabs (fsub expected_gross (gross_total invoice))) tolerance
   then ["business_rule_failed: gross_total_mismatch " +:+
         "(expected=" +:+ format_2f expected_gross +:+
         ", actual=" +:+ format_2f (gross_total invoice) +:+ ")"]
   else []) ++
  match due_date invoice, invoice_date invoice with
  | Some due, Some issued =>
      if date_lt due issued
      then ["business_rule_failed: due_date_before_invoice_date " +:+
            "(due_date=" +:+ isoformat due +:+
            ", invoice_date=" +:+ isoformat issued +:+ ")"]
      else []
  | _, _ => []
  end.

(** The key [_validate_anomalies] looks up. *)
Definition key_of (invoice : Invoice) : duplicate_key :=
  (invoice_number invoice, seller_name invoice,
   match invoice_date invoice with
   | Some d => Some (isoformat d)
   | None => None
   end).

(** [self.seen_invoices] is passed in and handed back. *)
Definition _validate_anomalies (seen_invoices : gset duplicate_key)
    (invoice : Invoice) (invoice_id : value) : list string * gset duplicate_key :=
  let duplicate_key := key_of invoice in
  if bool_decide (duplicate_key ∈ seen_invoices)
  then (["anomaly_detected: duplicate_invoice " +:+
         "(invoice_number=" +:+ invoice_number invoice +:+ ", " +:+
         "seller=" +:+ seller_name invoice +:+
         ", date=" +:+ str_opt_date (invoice_date invoice) +:+ ")"],
        seen_invoices)
  else ([], {[duplicate_key]} ∪ seen_invoices).

Definition validate (seen_invoices : gset duplicate_key) (invoice_data : dict)
  : ValidationResult * gset duplicate_key :=
  let invoice_id :=
    get invoice_data "invoice_id" (get invoice_data "invoice_number" (VStr "unknown")) in
  match Invoice_new invoice_data with
  | Invalid e =>
      (mkResult invoice_id false ["schema_error: " +:+ str_validation_error e],
       seen_invoices)
  | Ok invoice =>
      let errors := _validate_completeness invoice in
      let errors := errors ++ _validate_format invoice in
      let errors := errors ++ _validate_business_rules invoice in
      let '(anomalies, seen_invoices) :=
        _validate_anomalies seen_invoices invoice invoice_id in
      let errors := errors ++ anomalies in
      let is_valid := (List.length errors =? 0)%nat in
      (mkResult invoice_id is_valid errors, seen_invoices)
  end.

(** [error.split(":")[0] if ":" in error else "unknown"] *)
Definition error_type (error : string) : string :=
  if contains ":" error then split_head ":" error else "unknown".

Definition count_errors (error_counts : gmap string nat) (errs : list string)
  : gmap string nat :=
  fold_left (fun c error => counter_incr c (error_type error)) errs error_counts.

(** The [for invoice_data in invoices] loop with its three pieces of state. *)
Fixpoint validate_loop (seen_invoices : gset duplicate_key) (invoices : list dict)
    (results : list ValidationResult) (error_counts : gmap string nat)
  : list ValidationResult * gmap string nat * gset duplicate_key :=
  match invoices with
  | [] => (results, error_counts, seen_invoices)
  | invoice_data :: rest =>
      let '(result, seen_invoices) := validate seen_invoices invoice_data in
      validate_loop seen_invoices rest (results ++ [result])
        (count_errors error_counts (errors result))
  end.

Definition validate_batch (seen_invoices : gset duplicate_key) (invoices : list dict)
  : BatchReport * gset duplicate_key :=
  let seen_invoices : gset duplicate_key := ∅ in
  let '(results, error_counts, seen_invoices) :=
    validate_loop seen_invoices invoices [] ∅ in
  let valid_count := List.length (filter (fun r => is_valid r = true) results) in
  let invalid_count := (List.length results - valid_count)%nat in
  (mkReport results
     (mkSummary (List.length invoices) valid_count invalid_count error_counts),
   seen_invoices).

Definition reset_duplicate_tracking (seen_invoices : gset duplicate_key)
  : gset duplicate_key := ∅.

End WithPydantic.

(** An error list carries an error of a given kind when one of its strings
    starts with the kind's tag. *)
Definition emits (tag : string) (errs : list string) : bool :=
  existsb (startswith tag) errs.

End Validator.

(** ** Reference points for the batch loop *)

Module BatchSpec.
Import Py Schema Validator.

(** The display identifier [validate] computes first. *)
Definition id_of (d : dict) : value :=
  get d "invoice_id" (get d "invoice_number" (VStr "unknown")).

Section WithPydantic.
Context {P : Pydantic} {I : Interpreter}.

(** The tracking set after [validate] has been called on each record of
    [invoices], first to last. *)
Definition seen_after (seen : gset duplicate_key) (invoices : list dict)
  : gset duplicate_key :=
  fold_left (fun s d => (validate s d).2) invoices seen.

(** The results of calling [validate] on each record first to last, each
    call starting from the set the previous one left. *)
Fixpoint in_order (seen : gset duplicate_key) (invoices : list dict)
  : list ValidationResult :=
  match invoices with
  | [] => []
  | d :: rest => (validate seen d).1 :: in_order (validate seen d).2 rest
  end.

End WithPydantic.

(** Every error string of a list of results. *)
Definition all_errors (rs : list ValidationResult) : list string :=
  concat (map errors rs).

(** How many strings of [errs] fall in category [cat]. *)
Definition occurrences (cat : string) (errs : list string) : nat :=
  List.length (filter (fun e => error_type e = cat) errs).

(** The sum of the counts of a counter. *)
Definition counter_total (c : gmap string nat) : nat :=
  map_fold (fun _ n acc => (n + acc)%nat) O c.

Definition duplicate_tag : string := "anomaly_detected: duplicate_invoice".
Definition totals_tag : string := "business_rule_failed: totals_mismatch".
Definition gross_tag : string := "business_rule_failed: gross_total_mismatch".
Definition due_date_tag : string := "business_rule_failed: due_date_before_invoice_date".

End BatchSpec.

(** ** utils/patterns.py *)

Module Patterns.
Import Py.

(** What [match.group(1)] gives for a match object: the captured text, [None]
    when the group took no part in the match, or an [IndexError] when the
    pattern has no group 1. *)
Inductive group : Type :=
  | Captured (s : string)
  | Unset
  | No_such_group.

(** A compiled pattern as the extractors use it: [pattern.search(text)]
    finds no match, or a match whose group 1 is read. *)
Definition Pattern : Type := string -> option group.

Inductive exn : Type :=
  | AttributeError
  | IndexError
  | ValueError
  | TypeError
  | OverflowError.

Inductive outcome (A : Type) : Type :=
  | Return (a : A)
  | Raise (e : exn).
Arguments Return {A} a.
Arguments Raise {A} e.

Definition bind {A B : Type} (x : outcome A) (k : A -> outcome B) : outcome B :=
  match x with
  | Return a => k a
  | Raise e => Raise e
  end.

#[export] Instance outcome_bind : MBind outcome :=
  fun A B k x => bind x k.

(** The pattern tables of the module. Each of their patterns has a group 1
    that takes part in every match, so a table entry is given as the search
    that yields the text of group 1. [table_pattern] is only asked where its
    match ends, and the row pattern (written twice in the source, as
    [line_item_pattern] and inline) only for [findall]. *)
Class Tables : Type := {
  INVOICE_NUMBER_PATTERNS : list (string -> option string);
  DATE_PATTERNS : list (string -> option string);
  DUE_DATE_PATTERNS : list (string -> option string);
  SELLER_PATTERNS : list (string -> option string);
  BUYER_PATTERNS : list (string -> option string);
  ADDRESS_PATTERNS : list (string -> option string);
  TAX_ID_PATTERNS : list (string -> option string);
  CURRENCY_PATTERNS : list (string -> option string);
  AMOUNT_PATTERNS : list (string -> option string);
  NET_TOTAL_PATTERNS : list (string -> option string);
  TAX_AMOUNT_PATTERNS : list (string -> option string);
  GROSS_TOTAL_PATTERNS : list (string -> option string);
  table_pattern_end : string -> option nat;
  line_item_pattern_findall : string -> list (string * string * string * string)
}.

(** Library calls of the extraction code: [float(s)] on text, [None] standing
    for its [ValueError]; and [dateutil.parser.parse(s, dayfirst=True,
    fuzzy=True)] followed by [.date()], which gives a date or raises: a
    [ParserError] (a [ValueError]) for a text it cannot read, an
    [OverflowError] for a number too large for a date component. *)
Class Library : Type := {
  float_of_str : string -> option float;
  dateutil_parse : string -> outcome date
}.

(** A table entry seen as a general pattern. *)
Definition with_group (p : string -> option string) : Pattern :=
  fun text => option_map Captured (p text).

Section Extractors.
Context {T : Tables} {L : Library} {I : Interpreter}.

(** The loop shared by the text extractors: the first pattern that matches
    wins and its group 1 is returned stripped. *)
Fixpoint first_match (patterns : list (string -> option string)) (text : string)
  : option string :=
  match patterns with
  | [] => None
  | pattern :: rest =>
      match pattern text with
      | Some g => Some (strip g)
      | None => first_match rest text
      end
  end.

Definition extract_invoice_number (text : string) : option string :=
  first_match INVOICE_NUMBER_PATTERNS text.

Definition extract_date (text : string)
    (patterns : option (list (string -> option string))) : option string :=
  let patterns := match patterns with None => DATE_PATTERNS | Some ps => ps end in
  first_match patterns text.

Definition extract_due_date (text : string) : option string :=
  extract_date text (Some DUE_DATE_PATTERNS).

Definition extract_seller_name (text : string) : option string :=
  first_match SELLER_PATTERNS text.

Definition extract_buyer_name (text : string) : option string :=
  first_match BUYER_PATTERNS text.

Definition extract_address (text : string) : option string :=
  first_match ADDRESS_PATTERNS text.

Definition extract_tax_id (text : string) : option string :=
  first_match TAX_ID_PATTERNS text.

Definition euro_sign : string :=
  String (ascii_of_nat 226) (String (ascii_of_nat 130) (String (ascii_of_nat 172) EmptyString)).

Definition rupee_sign : string :=
  String (ascii_of_nat 226) (String (ascii_of_nat 130) (String (ascii_of_nat 185) EmptyString)).

Definition currency_code (currency : string) : string :=
  if String.eqb currency euro_sign then "EUR"
  else if String.eqb currency "$" then "USD"
  else if String.eqb currency rupee_sign then "INR"
  else upper currency.

Fixpoint extract_currency_from (patterns : list (string -> option string))
    (text : string) : option string :=
  match patterns with
  | [] => None
  | pattern :: rest =>
      match pattern text with
      | Some g => Some (currency_code (strip g))
      | None => extract_currency_from rest text
      end
  end.

Definition extract_currency (text : string) : option string :=
  extract_currency_from CURRENCY_PATTERNS text.

(** The loop of [extract_amount]. *)
Fixpoint extract_amount_from (patterns : list Pattern) (text : string)
  : outcome (option float) :=
  match patterns with
  | [] => Return None
  | pattern :: rest =>
      match pattern text with
      | None => extract_amount_from rest text
      | Some No_such_group => Raise IndexError
      | Some Unset => Raise AttributeError
      | Some (Captured g) =>
          let amount_str := remove_char "," g in
          match float_of_str amount_str with
          | Some v => Return (Some v)
          | None => extract_amount_from rest text
          end
      end
  end.

Definition extract_amount (text : string) (patterns : option (list Pattern))
  : outcome (option float) :=
  let patterns :=
    match patterns with
    | None => map with_group AMOUNT_PATTERNS
    | Some ps => ps
    end in
  extract_amount_from patterns text.

(** A pattern that contributes no amount on [text]: it does not match, or
    what it captures does not parse once the commas are gone. *)
Definition unusable (text : string) (p : Pattern) : Prop :=
  p text = None \/
  exists g, p text = Some (Captured g) /\ float_of_str (remove_char "," g) = None.

Definition extract_net_total (text : string) : outcome (option float) :=
  extract_amount text (Some (map with_group NET_TOTAL_PATTERNS)).

Definition extract_tax_amount (text : string) : outcome (option float) :=
  extract_amount text (Some (map with_group TAX_AMOUNT_PATTERNS)).

Definition extract_gross_total (text : string) : outcome (option float) :=
  extract_amount text (Some (map with_group GROSS_TOTAL_PATTERNS)).

(** The body of the [try] in the row loops: the three conversions, [None]
    when one of them raises [ValueError]. *)
Definition row_fields (row : string * string * string * string)
  : option (string * float * float * float) :=
  let '(r0, r1, r2, r3) := row in
  let description := strip r0 in
  match float_of_str (remove_char "," r1) with
  | None => None
  | Some quantity =>
      match float_of_str (remove_char "," r2) with
      | None => None
      | Some unit_price =>
          match float_of_str (remove_char "," r3) with
          | None => None
          | Some line_total => Some (description, quantity, unit_price, line_total)
          end
      end
  end.

Definition item_dict (description : string) (quantity unit_price line_total : float)
  : dict :=
  <["line_total" := VFloat line_total]>
    (<["unit_price" := VFloat unit_price]>
       (<["quantity" := VFloat quantity]>
          (<["description" := VStr description]> ∅))).

Definition nonempty (s : string) : bool :=
  match s with EmptyString => false | _ => true end.

(** One loop over rows; [min_len] is the extra floor on the length of the
    description that the fallback asks for. *)
Fixpoint collect_rows (min_len : nat) (rows : list (string * string * string * string))
    (line_items : list dict) : list dict :=
  match rows with
  | [] => line_items
  | row :: rest =>
      match row_fields row with
      | None => collect_rows min_len rest line_items
      | Some (description, quantity, unit_price, line_total) =>
          if nonempty description && (min_len <=? len description)%nat
             && fgt quantity zero
          then collect_rows min_len rest
                 (line_items ++ [item_dict description quantity unit_price line_total])
          else collect_rows min_len rest line_items
      end
  end.

Definition extract_line_items (text : string) : list dict :=
  let line_items :=
    match table_pattern_end text with
    | Some e =>
        let table_text := slice_from e text in
        let rows := line_item_pattern_findall table_text in
        collect_rows 0 (take 10 rows) []
    | None => []
    end in
  match line_items with
  | [] =>
      let matches := line_item_pattern_findall text in
      collect_rows 3 (take 10 matches) line_items
  | _ => line_items
  end.

End Extractors.
End Patterns.

(** ** extractor.py *)

Module Extractor.
Import Py Patterns.

Section WithLibrary.
Context {T : Tables} {L : Library} {I : Interpreter}.

(** The exceptions [except (ValueError, TypeError)] catches. *)
Definition caught (e : exn) : bool :=
  match e with
  | ValueError | TypeError => true
  | _ => false
  end.

Definition parse_date (date_str : string) : outcome (option string) :=
  match date_str with
  | EmptyString => Return None
  | _ =>
      match dateutil_parse date_str with
      | Return date_obj => Return (Some (isoformat date_obj))
      | Raise e => if caught e then Return None else Raise e
      end
  end.

(** [x or dflt] on optional text and on optional floats. *)
Definition str_or (x : option string) (dflt : string) : string :=
  match x with
  | Some (String a s) => String a s
  | _ => dflt
  end.

Definition float_or (x : option float) (dflt : float) : float :=
  match x with
  | Some v => if float_truthy v then v else dflt
  | None => dflt
  end.

Definition opt_str (x : option string) : value :=
  match x with
  | Some s => VStr s
  | None => VNone
  end.

(** [parse_date(s) if s else None] *)
Definition date_field (s : option string) : outcome value :=
  match s with
  | Some (String a r) => d ← parse_date (String a r); Return (opt_str d)
  | _ => Return VNone
  end.

Definition line_item_entry (item : dict) : value :=
  VDict
    (<["line_total" := get item "line_total" (VFloat zero)]>
       (<["unit_price" := get item "unit_price" (VFloat zero)]>
          (<["quantity" := get item "quantity" (VFloat zero)]>
             (<["description" := get item "description" (VStr "")]> ∅)))).

Definition extract_invoice_from_text (text : string) (invoice_id : option string)
  : outcome dict :=
  let invoice_number := str_or (extract_invoice_number text) "UNKNOWN" in
  let invoice_date_str := extract_date text None in
  let due_date_str := extract_due_date text in
  let seller_name := extract_seller_name text in
  let buyer_name := extract_buyer_name text in
  let seller_address := extract_address text in
  let buyer_address : option string := None in
  let seller_tax_id := extract_tax_id text in
  let buyer_tax_id : option string := None in
  let currency := str_or (extract_currency text) "USD" in
  net ← extract_net_total text;
  let net_total := float_or net zero in
  tax ← extract_tax_amount text;
  let tax_amount := float_or tax zero in
  gross ← extract_gross_total text;
  let gross_total := float_or gross zero in
  let line_items_data := extract_line_items text in
  let line_items := map line_item_entry line_items_data in
  invoice_date ← date_field invoice_date_str;
  due_date ← date_field due_date_str;
  let invoice_data : dict :=
    list_to_map [
      ("invoice_number", VStr invoice_number);
      ("invoice_date", invoice_date);
      ("due_date", due_date);
      ("seller_name", VStr (str_or seller_name ""));
      ("seller_address", opt_str seller_address);
      ("seller_tax_id", opt_str seller_tax_id);
      ("buyer_name", VStr (str_or buyer_name ""));
      ("buyer_address", opt_str buyer_address);
      ("buyer_tax_id", opt_str buyer_tax_id);
      ("currency", VStr currency);
      ("net_total", VFloat net_total);
      ("tax_amount", VFloat tax_amount);
      ("gross_total", VFloat gross_total);
      ("line_items", VList line_items)
    ] in
  match invoice_id with
  | Some (String a s) => Return (<["invoice_id" := VStr (String a s)]> invoice_data)
  | _ => Return invoice_data
  end.

End WithLibrary.

(** The fields of the [Invoice] data model. *)
Definition invoice_fields : list string :=
  ["invoice_number"; "invoice_date"; "due_date"; "seller_name"; "seller_address";
   "seller_tax_id"; "buyer_name"; "buyer_address"; "buyer_tax_id"; "currency";
   "net_total"; "tax_amount"; "gross_total"; "line_items"].

End Extractor.

(** ** Sample inputs *)

Module Samples.
Import Py Interpreters Schema Validator Patterns Extractor.

Definition line (description : string) (quantity : Z) (unit_price line_total : float)
  : dict :=
  list_to_map [("description", VStr description); ("quantity", VInt quantity);
               ("unit_price", VFloat unit_price); ("line_total", VFloat line_total)].

(** quantity 2, unit price 10.00 and a line total of 20.00, 20.005, 20.02
    or 21.00 *)
Definition item_20_00 : dict := line "Widget" 2 (decimal 1000 2) (decimal 2000 2).
Definition item_20_005 : dict := line "Widget" 2 (decimal 1000 2) (decimal 20005 3).
Definition item_20_02 : dict := line "Widget" 2 (decimal 1000 2) (decimal 2002 2).
Definition item_21_00 : dict := line "Widget" 2 (decimal 1000 2) (decimal 2100 2).

Definition invoice (number date : string) (net tax gross : Z) (items : list dict)
  : dict :=
  list_to_map [("invoice_number", VStr number); ("invoice_date", VStr date);
               ("seller_name", VStr "Seller"); ("buyer_name", VStr "Buyer");
               ("currency", VStr "USD");
               ("net_total", VFloat (float_of_Z net));
               ("tax_amount", VFloat (float_of_Z tax));
               ("gross_total", VFloat (float_of_Z gross));
               ("line_items", VList (VDict <$> items))].

(** The first record of [test_batch_validation]. *)
Definition inv_001 : dict :=
  invoice "INV-001" "2024-01-15" 100 10 110
    [line "Item 1" 1 (float_of_Z 100) (float_of_Z 100)].

(** Line items add up to 50 against a net total of 100, and 100 + 10 against
    a gross total of 120. *)
Definition inv_mismatched : dict :=
  invoice "INV-003" "2024-01-15" 100 10 120
    [line "Item 1" 1 (float_of_Z 20) (float_of_Z 20);
     line "Item 2" 1 (float_of_Z 30) (float_of_Z 30)].

(** The record of [test_due_date_validation]. *)
Definition inv_late : dict :=
  <["due_date" := VStr "2024-01-10"]> (invoice "INV-001" "2024-01-15" 100 10 110 []).

(** The objects the constructor builds from [inv_001] and
    [inv_mismatched]. *)
Definition built (number : string) (net tax gross : Z) (items : list LineItem)
  : Invoice :=
  mkInvoice number (Some (Date 2024 1 15)) None "Seller" None None "Buyer" None None
    "USD" (float_of_Z net) (float_of_Z tax) (float_of_Z gross) items.

Definition built_001 : Invoice :=
  built "INV-001" 100 10 110
    [mkLineItem "Item 1" (float_of_Z 1) (float_of_Z 100) (float_of_Z 100)].

Definition built_mismatched : Invoice :=
  built "INV-003" 100 10 120
    [mkLineItem "Item 1" (float_of_Z 1) (float_of_Z 20) (float_of_Z 20);
     mkLineItem "Item 2" (float_of_Z 1) (float_of_Z 30) (float_of_Z 30)].

(** Plain decimal numerals and ISO dates, as a sample of the library
    calls. *)
Definition iso_parse (s : string) : outcome date :=
  match date_of_iso s with
  | Some d => Return d
  | None => Raise ValueError
  end.

#[export] Instance Plain : Library := {
  float_of_str := plain_float_of_str;
  dateutil_parse := iso_parse
}.

(** A pattern that matches a text starting with [label] and captures what
    follows. *)
Definition after_label (label : string) : Pattern :=
  fun text =>
    if startswith label text
    then Some (Captured (str_drop (String.length label) text))
    else None.

(** A pattern that captures a fixed text wherever it matches. *)
Definition always (g : string) : Pattern := fun _ => Some (Captured g).

(** A search in the style of the label-anchored patterns: the first
    occurrence of [label], capturing the rest of its line. *)
Fixpoint find_after (label text : string) : option string :=
  if startswith label text then Some (str_drop (String.length label) text)
  else match text with
       | EmptyString => None
       | String _ text' => find_after label text'
       end.

Fixpoint line_head (s : string) : string :=
  match s with
  | EmptyString => EmptyString
  | String c s' => if Ascii.eqb c (ascii_of_nat 10) then EmptyString else String c (line_head s')
  end.

Definition labelled (label : string) : string -> option string :=
  fun text =>
    match find_after label text with
    | Some r => match line_head r with
                | EmptyString => None
                | l => Some l
                end
    | None => None
    end.

(** Tables of label-anchored searches, no table header and no rows. *)
#[export] Instance LabelTables : Tables := {
  INVOICE_NUMBER_PATTERNS := [labelled "Invoice #:"];
  DATE_PATTERNS := [labelled "Date:"];
  DUE_DATE_PATTERNS := [labelled "Due Date:"];
  SELLER_PATTERNS := [labelled "From:"];
  BUYER_PATTERNS := [labelled "To:"];
  ADDRESS_PATTERNS := [labelled "Address:"];
  TAX_ID_PATTERNS := [labelled "Tax ID:"];
  CURRENCY_PATTERNS := [labelled "Currency:"];
  AMOUNT_PATTERNS := [];
  NET_TOTAL_PATTERNS := [labelled "Subtotal: "];
  TAX_AMOUNT_PATTERNS := [labelled "Tax: "];
  GROSS_TOTAL_PATTERNS := [labelled "Total: "];
  table_pattern_end := fun _ => None;
  line_item_pattern_findall := fun _ => []
}.

Definition newline : string := String (ascii_of_nat 10) EmptyString.

Definition sample_text : string :=
  "Invoice #: INV-2024-001" +:+ newline +:+
  "Date: 2024-01-15" +:+ newline +:+
  "From: Acme Corporation" +:+ newline +:+
  "To: Customer Inc." +:+ newline +:+
  "Currency: usd" +:+ newline +:+
  "Subtotal: 1,035.00" +:+ newline +:+
  "Tax: 3.50" +:+ newline +:+
  "Total: 1,038.50" +:+ newline.

(** Tables with no pattern at all: nothing ever matches. *)
#[export] Instance NoTables : Tables := {
  INVOICE_NUMBER_PATTERNS := [];
  DATE_PATTERNS := [];
  DUE_DATE_PATTERNS := [];
  SELLER_PATTERNS := [];
  BUYER_PATTERNS := [];
  ADDRESS_PATTERNS := [];
  TAX_ID_PATTERNS := [];
  CURRENCY_PATTERNS := [];
  AMOUNT_PATTERNS := [];
  NET_TOTAL_PATTERNS := [];
  TAX_AMOUNT_PATTERNS := [];
  GROSS_TOTAL_PATTERNS := [];
  table_pattern_end := fun _ => None;
  line_item_pattern_findall := fun _ => []
}.

End Samples.

(** ** The rest of validator.py: the [ValidationError] class *)

Module ValidationErrorClass.
Import Py.

Record ValidationError : Type := mkValidationError {
  error_type : string;
  message : string
}.

Definition __str__ (self : ValidationError) : string :=
  error_type self +:+ ": " +:+ message self.

Definition to_dict (self : ValidationError) : gmap string string :=
  <["message" := message self]> (<["error_type" := error_type self]> ∅).

End ValidationErrorClass.

(** ** The rest of extractor.py: the directory loop *)

Module Directory.
Import Py Patterns Extractor.

Section WithLibrary.
Context {T : Tables} {L : Library} {I : Interpreter}.

(** [Path(filename).stem], a pathlib call, is a parameter; [pdf_texts] is
    what [extract_text_from_pdfs] read from the directory. *)
Variable stem : string -> string.

Fixpoint extract_invoices_loop (pdf_texts : list (string * string))
    (invoices : list dict) : list dict :=
  match pdf_texts with
  | [] => invoices
  | (filename, text) :: rest =>
      let invoice_id := stem filename in
      match extract_invoice_from_text text (Some invoice_id) with
      | Return invoice_data => extract_invoices_loop rest (invoices ++ [invoice_data])
      | Raise _ => extract_invoices_loop rest invoices
      end
  end.

Definition extract_invoices_from_directory (pdf_texts : list (string * string))
  : list dict :=
  extract_invoices_loop pdf_texts [].

(** [extract_invoice_from_pdf] once the text of the file has been read. *)
Definition extract_invoice_from_pdf (text pdf_path : string)
    (invoice_id : option string) : outcome dict :=
  let invoice_id :=
    match invoice_id with
    | Some (String a s) => String a s
    | _ => stem pdf_path
    end in
  extract_invoice_from_text text (Some invoice_id).

End WithLibrary.
End Directory.

(** ** Reference points for the further properties *)

Module ExtraSpec.
Import Py Schema Validator BatchSpec.

(** The five categories the validator writes in front of an error. *)
Definition categories : list string :=
  ["schema_error"; "missing_field"; "format_error"; "business_rule_failed";
   "anomaly_detected"].

(** What the schema guarantees of a line item. *)
Definition line_item_sound (li : LineItem) : Prop :=
  flt (quantity li) zero = false /\ flt (unit_price li) zero = false /\
  flt (line_total li) zero = false /\
  fgt (fabs (fsub (line_total li) (fmul (quantity li) (unit_price li))))
      (decimal 1 2) = false.

Section WithPydantic.
Context {P : Pydantic} {I : Interpreter}.

(** The records of a list that build an [Invoice]. *)
Definition built_count (invoices : list dict) : nat :=
  List.length (filter (fun d => is_ok (Invoice_new d) = true) invoices).

End WithPydantic.

(** The results that carry the duplicate error. *)
Definition flagged_count (rs : list ValidationResult) : nat :=
  List.length (filter (fun r => emits duplicate_tag (errors r) = true) rs).

End ExtraSpec.

Module ExtractSpec.
Import Py Patterns Extractor.

(** What [parse_date] needs of a text the date patterns found: dateutil
    reads it, or raises one of the two exceptions [parse_date] catches. The
    date patterns of the module capture digit groups of at most four digits,
    which is what keeps dateutil from an [OverflowError] here. *)
Definition date_parses {L : Library} (s : option string) : Prop :=
  match s with
  | Some (String a r) =>
      match dateutil_parse (String a r) with
      | Return _ => True
      | Raise e => caught e = true
      end
  | _ => True
  end.

(** An entry of [extract_line_items] read from one of [rows]: the four
    keys; the description is the stripped first column of the row, not
    empty and at least [min_len] characters long; the three numbers are the
    other columns, parsed once their commas are removed; the quantity is
    above 0. *)
Definition sound_item {L : Library} {I : Interpreter} (min_len : nat)
    (rows : list (string * string * string * string)) (item : dict) : Prop :=
  exists r0 r1 r2 r3 quantity unit_price line_total,
    (r0, r1, r2, r3) ∈ rows /\
    item = item_dict (strip r0) quantity unit_price line_total /\
    strip r0 <> EmptyString /\ (min_len <= len (strip r0))%nat /\
    float_of_str (remove_char "," r1) = Some quantity /\
    float_of_str (remove_char "," r2) = Some unit_price /\
    float_of_str (remove_char "," r3) = Some line_total /\
    fgt quantity zero = true.

(** The record a document of the directory gives, when its extraction
    returns. *)
Definition extracted {T : Tables} {L : Library} {I : Interpreter}
    (stem : string -> string) (ft : string * string) : option dict :=
  match extract_invoice_from_text ft.2 (Some (stem ft.1)) with
  | Return d => Some d
  | Raise _ => None
  end.

End ExtractSpec.

(** ** More sample inputs *)

Module MoreSamples.
Import Py Interpreters Schema Validator Patterns Extractor Samples.

(** [inv_001] with a number that is one space, an empty seller, an unlisted
    currency, or no line item. *)
Definition inv_blank_number : dict := <["invoice_number" := VStr " "]> inv_001.
Definition inv_empty_seller : dict := <["seller_name" := VStr ""]> inv_001.
Definition inv_xyz : dict := <["currency" := VStr "XYZ"]> inv_001.
Definition inv_no_items : dict := invoice "INV-001" "2024-01-15" 100 10 110 [].

Definition built_blank_number : Invoice :=
  built " " 100 10 110
    [mkLineItem "Item 1" (float_of_Z 1) (float_of_Z 100) (float_of_Z 100)].

Definition built_no_items : Invoice := built "INV-001" 100 10 110 [].

(** A text in which the label tables find no date. *)
Definition undated_text : string :=
  "Invoice #: INV-7" +:+ newline +:+ "From: Acme" +:+ newline +:+ "To: Customer".

(** A line item whose quantity is nan, and [inv_001] with a net total that
    is nan. *)
Definition item_nan : dict :=
  <["quantity" := VFloat S754_nan]> item_20_00.

Definition inv_nan : dict := <["net_total" := VFloat S754_nan]> inv_001.

(** A line item with an infinite quantity at a unit price of 0: the product
    is nan. *)
Definition item_inf : dict :=
  list_to_map [("description", VStr "Widget");
               ("quantity", VFloat (S754_infinity false));
               ("unit_price", VFloat zero); ("line_total", VFloat zero)].

(** Ten line items of 0.1 each against a net total of 0.99. Added from left
    to right the ten make 0.9999999999999999; with the compensation term
    they make 1.0. *)
Definition tenth : float := decimal 1 1.

Definition inv_tenths : dict :=
  <["net_total" := VFloat (decimal 99 2)]>
    (<["gross_total" := VFloat (decimal 99 2)]>
       (invoice "INV-010" "2024-01-15" 0 0 0
          (replicate 10 (line "Tenth" 1 tenth tenth)))).

(** A dateutil that fails on a date text of more than ten characters with
    the [OverflowError] of a number too large for a date component, and a
    text whose date line carries such a number. *)
Definition overflowing_parse (s : string) : outcome date :=
  if (10 <? String.length s)%nat then Raise OverflowError else iso_parse s.

Definition Overflowing : Library := {|
  float_of_str := plain_float_of_str;
  dateutil_parse := overflowing_parse
|}.

Definition overflowing_text : string :=
  "Invoice #: INV-8" +:+ newline +:+ "Date: 99999999999999999999-01-01".

End MoreSamples.

(** * Properties *)

(** ** Floats *)

Module FloatFacts.
Import Py.

Lemma SFcompare_antisym (x y : float) :
  SFcompare y x = option_map CompOpp (SFcompare x y).
Proof.
  destruct x as [[]|[]| |[] m1 e1], y as [[]|[]| |[] m2 e2]; try reflexivity;
    cbn [SFcompare option_map]; f_equal;
    rewrite (Z.compare_antisym e1 e2);
    destruct (e1 ?= e2)%Z; cbn [CompOpp]; try reflexivity.
  - f_equal. symmetry. apply (Pos.compare_cont_antisym m1 m2 Eq).
  - symmetry. apply (Pos.compare_cont_antisym m1 m2 Eq).
Qed.

(** For two numbers, [not (x > y)] is [x <= y]. *)
Lemma not_above_iff (x y : float) :
  x <> S754_nan -> y <> S754_nan -> (fgt x y = false <-> fle x y = true).
Proof.
  intros Hx Hy. unfold fgt, fle, SFltb, SFleb. rewrite (SFcompare_antisym x y).
  destruct (SFcompare x y) as [[]|] eqn:Hc; cbn [option_map CompOpp];
    try (split; (reflexivity || discriminate)).
  destruct x as [[]|[]| |[] m1 e1], y as [[]|[]| |[] m2 e2]; try discriminate;
    contradiction.
Qed.

(** [x >= 0] excludes [x < 0]. *)
Lemma at_least_zero_not_below (x : float) : fge x zero = true -> flt x zero = false.
Proof. destruct x as [[]|[]| |[] m e]; by compute. Qed.

Lemma sum_nil {I : Interpreter} : sum [] = zero.
Proof. unfold sum. by destruct compensated_sum. Qed.

End FloatFacts.

(** ** Construction of the models *)

Module SchemaFacts.
Import Py Schema FloatFacts.

Lemma ap_Ok_inv {A B : Type} (f : result (A -> B)) (x : result A) (b : B) :
  f <*> x = Ok b -> exists g a, f = Ok g /\ x = Ok a /\ b = g a.
Proof.
  destruct f as [g|e1], x as [a|e2]; simpl; intros H; try discriminate.
  injection H as <-. eauto.
Qed.

Lemma and_then_Ok_inv {A B : Type} (x : result A) (k : A -> result B) (b : B) :
  and_then x k = Ok b -> exists a, x = Ok a /\ k a = Ok b.
Proof. destruct x as [a|e]; simpl; intros H; [eauto | discriminate]. Qed.

Ltac invert_fields :=
  repeat match goal with
         | H : _ <*> _ = Ok _ |- _ =>
             let g := fresh "g" in
             let a := fresh "a" in
             let Hx := fresh "Hfield" in
             let Hb := fresh "Hb" in
             apply ap_Ok_inv in H as (g & a & H & Hx & Hb)
         end;
  match goal with
  | H : Ok _ = Ok _ |- _ => injection H as <-
  end;
  subst.

Section WithPydantic.
Context {P : Pydantic} {I : Interpreter}.

Lemma validate_due_date_Ok (inv inv' : Invoice) :
  validate_due_date inv = Ok inv' ->
  inv' = inv /\
  forall due issued, due_date inv = Some due -> invoice_date inv = Some issued ->
                     date_lt due issued = false.
Proof.
  unfold validate_due_date.
  destruct (due_date inv) as [due|], (invoice_date inv) as [issued|];
    try (intros [= <-]; split; [reflexivity | intros; discriminate]).
  destruct (date_lt due issued) eqn:Hlt; [discriminate |].
  intros [= <-]. split; [reflexivity |]. intros ? ? [= <-] [= <-]. exact Hlt.
Qed.

Lemma Invoice_new_Ok (d : dict) (inv : Invoice) :
  Invoice_new d = Ok inv ->
  Invoice_fields d = Ok inv /\
  forall due issued, due_date inv = Some due -> invoice_date inv = Some issued ->
                     date_lt due issued = false.
Proof.
  unfold Invoice_new. intros H.
  apply and_then_Ok_inv in H as (inv0 & Hf & Hv).
  apply validate_due_date_Ok in Hv as [-> Hd]. auto.
Qed.

(** What the field phase stores in the two date attributes. *)
Lemma Invoice_fields_dates (d : dict) (inv : Invoice) :
  Invoice_fields d = Ok inv ->
  (exists issued, required lax_date d "invoice_date" = Ok issued /\
                  invoice_date inv = Some issued) /\
  optional lax_date d "due_date" = Ok (due_date inv).
Proof.
  unfold Invoice_fields. intros H. invert_fields. simpl.
  split; [| assumption].
  match goal with
  | H : and_then (required lax_date d "invoice_date") _ = Ok _ |- _ =>
      apply and_then_Ok_inv in H as (issued & Hr & [= <-])
  end.
  eauto.
Qed.

(** A constructed invoice always carries an invoice date. *)
Lemma Invoice_new_has_date (d : dict) (inv : Invoice) :
  Invoice_new d = Ok inv -> exists issued, invoice_date inv = Some issued.
Proof.
  intros H. apply Invoice_new_Ok in H as [H _].
  apply Invoice_fields_dates in H as [(issued & _ & H) _]. eauto.
Qed.

(** *** C6 *)

Lemma ge_0_Ok (k : string) (x y : float) :
  ge_0 k x = Ok y <-> y = x /\ fge x zero = true.
Proof.
  unfold ge_0. destruct (fge x zero); split.
  - intros [= <-]. auto.
  - intros [-> _]. reflexivity.
  - discriminate.
  - intros [_ H]. discriminate.
Qed.

Lemma required_ge_0_Ok (d : dict) (k : string) (x : float) :
  and_then (required lax_float d k) (ge_0 k) = Ok x <->
  required lax_float d k = Ok x /\ fge x zero = true.
Proof.
  split.
  - intros H. apply and_then_Ok_inv in H as (y & Hy & Hge).
    apply ge_0_Ok in Hge as [-> Hx]. auto.
  - intros [-> Hx]. simpl. by apply ge_0_Ok.
Qed.

Lemma LineItem_fields_Ok (d : dict) (li : LineItem) :
  LineItem_fields d = Ok li <->
  required lax_str d "description" = Ok (description li) /\
  (required lax_float d "quantity" = Ok (quantity li) /\ fge (quantity li) zero = true) /\
  (required lax_float d "unit_price" = Ok (unit_price li) /\
   fge (unit_price li) zero = true) /\
  (required lax_float d "line_total" = Ok (line_total li) /\
   fge (line_total li) zero = true).
Proof.
  unfold LineItem_fields. split.
  - intros H. invert_fields. simpl. rewrite <- !required_ge_0_Ok. auto.
  - rewrite <- !required_ge_0_Ok. intros (-> & -> & -> & ->). by destruct li.
Qed.

End WithPydantic.

(** C6, in the form the code satisfies. Building a [LineItem] from a
    mapping succeeds exactly when [description], [quantity], [unit_price]
    and [line_total] are present and coerce to their types, each of the
    three numbers is [>= 0] (which a nan is not), and
    [|line_total - quantity * unit_price|], computed in binary64, passes the
    test of the code, [not (... > 0.01)]; unless that distance is nan, the
    test is [... <= 0.01]. When the fields pass and the distance is above
    0.01 the construction fails with the line-total error. With quantity 2
    and unit price 10.00, a line total of 20.00 or 20.005 builds; 20.02 and
    21.00 do not; and a nan quantity does not build. *)
Theorem LineItem_new_iff {P : Pydantic} (d : dict) (li : LineItem) :
  let distance := fabs (fsub (line_total li) (fmul (quantity li) (unit_price li))) in
  (LineItem_new d = Ok li <->
   required lax_str d "description" = Ok (description li) /\
   required lax_float d "quantity" = Ok (quantity li) /\
   required lax_float d "unit_price" = Ok (unit_price li) /\
   required lax_float d "line_total" = Ok (line_total li) /\
   fge (quantity li) zero = true /\ fge (unit_price li) zero = true /\
   fge (line_total li) zero = true /\ fgt distance (decimal 1 2) = false) /\
  (distance <> S754_nan ->
   (fgt distance (decimal 1 2) = false <-> fle distance (decimal 1 2) = true) /\
   (LineItem_new d = Ok li <->
    required lax_str d "description" = Ok (description li) /\
    required lax_float d "quantity" = Ok (quantity li) /\
    required lax_float d "unit_price" = Ok (unit_price li) /\
    required lax_float d "line_total" = Ok (line_total li) /\
    fge (quantity li) zero = true /\ fge (unit_price li) zero = true /\
    fge (line_total li) zero = true /\ fle distance (decimal 1 2) = true)) /\
  (LineItem_fields d = Ok li -> fgt distance (decimal 1 2) = true ->
   LineItem_new d =
   Invalid [Line_total_mismatch (line_total li) (fmul (quantity li) (unit_price li))]) /\
  is_ok (LineItem_new (P := Json) Samples.item_20_00) = true /\
  is_ok (LineItem_new (P := Json) Samples.item_20_005) = true /\
  is_ok (LineItem_new (P := Json) Samples.item_20_02) = false /\
  is_ok (LineItem_new (P := Json) Samples.item_21_00) = false /\
  is_ok (LineItem_new (P := Json) MoreSamples.item_nan) = false.
Proof.
  intros distance.
  assert (Hiff : LineItem_new d = Ok li <->
            required lax_str d "description" = Ok (description li) /\
            required lax_float d "quantity" = Ok (quantity li) /\
            required lax_float d "unit_price" = Ok (unit_price li) /\
            required lax_float d "line_total" = Ok (line_total li) /\
            fge (quantity li) zero = true /\ fge (unit_price li) zero = true /\
            fge (line_total li) zero = true /\ fgt distance (decimal 1 2) = false).
  { subst distance. unfold LineItem_new. split.
    + intros H. apply and_then_Ok_inv in H as (li0 & Hf & Hv).
      unfold validate_line_total, tolerance in Hv.
      destruct (fgt _ _) eqn:Hoff in Hv; [discriminate |]. injection Hv as ->.
      apply LineItem_fields_Ok in Hf as (? & (? & ?) & (? & ?) & (? & ?)).
      repeat split; assumption.
    + intros (H1 & H2 & H3 & H4 & G2 & G3 & G4 & Hoff).
      assert (Hf : LineItem_fields d = Ok li) by (apply LineItem_fields_Ok; auto).
      rewrite Hf. simpl. unfold validate_line_total, tolerance. by rewrite Hoff. }
  split; [exact Hiff |]. split; [| subst distance; split].
  - intros Hn.
    assert (Hle : fgt distance (decimal 1 2) = false <-> fle distance (decimal 1 2) = true).
    { apply not_above_iff; [exact Hn | by vm_compute]. }
    split; [exact Hle |]. rewrite Hiff, Hle. reflexivity.
  - intros Hf Hoff. unfold LineItem_new. rewrite Hf. simpl.
    unfold validate_line_total, tolerance. by rewrite Hoff.
  - repeat split; vm_compute; reflexivity.
Qed.

Lemma LineItem_new_iff_witness :
  LineItem_new (P := Json) Samples.item_20_00 =
    Ok (mkLineItem "Widget" (float_of_Z 2) (decimal 1000 2) (decimal 2000 2)).
Proof.
  apply (proj1 (LineItem_new_iff (P := Json) Samples.item_20_00
                  (mkLineItem "Widget" (float_of_Z 2) (decimal 1000 2) (decimal 2000 2)))).
  repeat split; vm_compute; reflexivity.
Defined.

(** C6, counterexample to the claim as worded: with quantity 2 and unit
    price 10.00, a line total of 20.02 is off by 0.02 and the construction
    is refused. *)
Lemma line_total_20_02_refused :
  LineItem_new (P := Json) Samples.item_20_02 =
    Invalid [Line_total_mismatch (decimal 2002 2) (float_of_Z 20)] /\
  ~ (exists li, LineItem_new (P := Json) Samples.item_20_02 = Ok li).
Proof.
  assert (H : LineItem_new (P := Json) Samples.item_20_02 =
              Invalid [Line_total_mismatch (decimal 2002 2) (float_of_Z 20)])
    by (vm_compute; reflexivity).
  split; [exact H |]. intros [li Hli]. rewrite H in Hli. discriminate.
Qed.

(** An infinite quantity at a unit price of 0 makes the product nan; no
    comparison with nan holds, so the line-total check lets the item
    through although the distance is not [<= 0.01]. *)
Example infinite_quantity_builds :
  is_ok (LineItem_new (P := Json) MoreSamples.item_inf) = true /\
  fle (fabs (fsub zero (fmul (S754_infinity false) zero))) (decimal 1 2) = false.
Proof. split; vm_compute; reflexivity. Qed.

End SchemaFacts.

(** ** The validator *)

Module ValidatorFacts.
Import Py Schema Validator BatchSpec FloatFacts SchemaFacts.

Lemma emits_app (tag : string) (l1 l2 : list string) :
  emits tag (l1 ++ l2) = emits tag l1 || emits tag l2.
Proof. unfold emits. apply existsb_app. Qed.

Ltac by_cases_on_ifs :=
  repeat match goal with
         | |- context [if ?b then _ else _] => destruct b
         | |- context [match ?o with Some _ => _ | None => _ end] => destruct o
         end;
  reflexivity.

Section WithPydantic.
Context {P : Pydantic} {I : Interpreter}.

Lemma completeness_no_duplicate (inv : Invoice) :
  emits duplicate_tag (_validate_completeness inv) = false.
Proof. unfold _validate_completeness. by_cases_on_ifs. Qed.

Lemma format_no_duplicate (inv : Invoice) :
  emits duplicate_tag (_validate_format inv) = false.
Proof. unfold _validate_format. by_cases_on_ifs. Qed.

Lemma business_no_duplicate (inv : Invoice) :
  emits duplicate_tag (_validate_business_rules inv) = false.
Proof. unfold _validate_business_rules. cbv zeta. by_cases_on_ifs. Qed.

Lemma anomalies_eq (seen : gset duplicate_key) (inv : Invoice) (id : value) :
  (_validate_anomalies seen inv id).2 = {[key_of inv]} ∪ seen /\
  emits duplicate_tag (_validate_anomalies seen inv id).1 = bool_decide (key_of inv ∈ seen).
Proof.
  unfold _validate_anomalies. cbv zeta.
  destruct (bool_decide_reflect (key_of inv ∈ seen)) as [Hin|Hnin]; simpl.
  - split; [| reflexivity].
    symmetry. apply subseteq_union_1_L. by apply singleton_subseteq_l.
  - split; reflexivity.
Qed.

Lemma validate_Invalid (seen : gset duplicate_key) (d : dict) (e : list schema_error) :
  Invoice_new d = Invalid e ->
  validate seen d =
  (mkResult (id_of d) false ["schema_error: " +:+ str_validation_error e], seen).
Proof. intros H. unfold validate. rewrite H. reflexivity. Qed.

Lemma validate_Ok (seen : gset duplicate_key) (d : dict) (inv : Invoice) :
  Invoice_new d = Ok inv ->
  let errs := ((_validate_completeness inv ++ _validate_format inv) ++
               _validate_business_rules inv) ++
              (_validate_anomalies seen inv (id_of d)).1 in
  validate seen d =
  (mkResult (id_of d) (List.length errs =? 0)%nat errs,
   (_validate_anomalies seen inv (id_of d)).2).
Proof.
  intros H. unfold validate. rewrite H. fold (id_of d).
  destruct (_validate_anomalies seen inv (id_of d)) as [anomalies seen']. reflexivity.
Qed.


Lemma validate_seen (seen : gset duplicate_key) (d : dict) :
  (validate seen d).2 =
  match Invoice_new d with
  | Ok inv => {[key_of inv]} ∪ seen
  | Invalid _ => seen
  end.
Proof.
  destruct (Invoice_new d) as [inv|e] eqn:H.
  - rewrite (validate_Ok seen d inv H). cbn [snd]. apply anomalies_eq.
  - rewrite (validate_Invalid seen d e H). reflexivity.
Qed.

Lemma validate_emits_duplicate (seen : gset duplicate_key) (d : dict) (inv : Invoice) :
  Invoice_new d = Ok inv ->
  emits duplicate_tag (errors (validate seen d).1) = bool_decide (key_of inv ∈ seen).
Proof.
  intros H. rewrite (validate_Ok seen d inv H). cbn [fst errors].
  rewrite !emits_app, completeness_no_duplicate, format_no_duplicate,
    business_no_duplicate. cbn [orb]. apply anomalies_eq.
Qed.

Lemma validate_is_valid (seen : gset duplicate_key) (d : dict) :
  is_valid (validate seen d).1 = true <-> errors (validate seen d).1 = [].
Proof.
  destruct (Invoice_new d) as [inv|e] eqn:H.
  - rewrite (validate_Ok seen d inv H). cbn [fst errors is_valid].
    destruct (_ ++ _) as [|x l]; cbn [List.length Nat.eqb]; split; intros; congruence.
  - rewrite (validate_Invalid seen d e H). cbn [fst errors is_valid].
    split; intros; discriminate.
Qed.

(** *** The loop against its reference points *)

Lemma in_order_length (seen : gset duplicate_key) (l : list dict) :
  List.length (in_order seen l) = List.length l.
Proof.
  revert seen. induction l as [|d l IH]; intros seen; cbn [in_order List.length];
    [reflexivity | by rewrite IH].
Qed.

Lemma in_order_app (seen : gset duplicate_key) (l1 l2 : list dict) :
  in_order seen (l1 ++ l2) = in_order seen l1 ++ in_order (seen_after seen l1) l2.
Proof.
  revert seen. induction l1 as [|d l1 IH]; intros seen; [reflexivity |].
  rewrite <- app_comm_cons. cbn [in_order]. rewrite IH. reflexivity.
Qed.

Lemma in_order_lookup (seen : gset duplicate_key) (l : list dict) (i : nat) (d : dict) :
  l !! i = Some d ->
  in_order seen l !! i = Some (validate (seen_after seen (take i l)) d).1.
Proof.
  revert seen i. induction l as [|d0 l IH]; intros seen i H; [discriminate |].
  destruct i as [|i].
  - change (Some d0 = Some d) in H. injection H as ->. reflexivity.
  - change (l !! i = Some d) in H. apply (IH (validate seen d0).2 i H).
Qed.

Lemma count_errors_app (c : gmap string nat) (l1 l2 : list string) :
  count_errors c (l1 ++ l2) = count_errors (count_errors c l1) l2.
Proof. unfold count_errors. apply fold_left_app. Qed.

Lemma validate_loop_spec (seen : gset duplicate_key) (l : list dict)
    (rs : list ValidationResult) (c : gmap string nat) :
  validate_loop seen l rs c =
  (rs ++ in_order seen l, count_errors c (all_errors (in_order seen l)), seen_after seen l).
Proof.
  revert seen rs c. induction l as [|d l IH]; intros seen rs c.
  - cbn [validate_loop in_order]. by rewrite app_nil_r.
  - cbn [validate_loop in_order].
    change (seen_after seen (d :: l)) with (seen_after (validate seen d).2 l).
    destruct (validate seen d) as [r seen'] eqn:Hv. rewrite IH. cbn [fst snd].
    change (all_errors (r :: in_order seen' l))
      with (errors r ++ all_errors (in_order seen' l)).
    rewrite count_errors_app, <- app_assoc. reflexivity.
Qed.

Lemma validate_batch_results (seen : gset duplicate_key) (l : list dict) :
  results (validate_batch seen l).1 = in_order ∅ l.
Proof. unfold validate_batch. rewrite validate_loop_spec. reflexivity. Qed.

(** *** C1 *)

(** C1. When building the [Invoice] of a record fails, [validate] answers
    [is_valid = False] with exactly one error, ["schema_error: "] followed by
    the text of the failure; none of the four rule families contributes an
    error and the tracking set, which only the anomaly check writes, is
    handed back as it came. *)
Theorem validate_schema_error (seen : gset duplicate_key) (d : dict)
    (e : list schema_error) :
  Invoice_new d = Invalid e ->
  is_valid (validate seen d).1 = false /\
  errors (validate seen d).1 = ["schema_error: " +:+ str_validation_error e] /\
  error_type <$> errors (validate seen d).1 = ["schema_error"] /\
  (forall tag, tag ∈ ["missing_field"; "format_error"; "business_rule_failed";
                      "anomaly_detected"] ->
               emits tag (errors (validate seen d).1) = false) /\
  (validate seen d).2 = seen.
Proof.
  intros H. rewrite (validate_Invalid seen d e H). cbn [fst snd errors is_valid].
  repeat split.
  intros tag Htag.
  repeat (apply elem_of_cons in Htag as [-> | Htag]; [reflexivity |]).
  by apply elem_of_nil in Htag.
Qed.

(** *** C10 *)

(** C10. A record whose [Invoice] cannot be built leaves the tracking set
    untouched: it is not flagged as a duplicate itself, any later call sees
    the set as it was, and in a batch the records around it get the results
    they would get without it. *)
Theorem schema_error_keeps_tracking (seen : gset duplicate_key) (d : dict)
    (e : list schema_error) :
  Invoice_new d = Invalid e ->
  (validate seen d).2 = seen /\
  emits duplicate_tag (errors (validate seen d).1) = false /\
  (forall d', validate (validate seen d).2 d' = validate seen d') /\
  (forall s0 l1 l2,
     results (validate_batch s0 (l1 ++ d :: l2)).1 =
       in_order ∅ l1 ++ (validate (seen_after ∅ l1) d).1 :: in_order (seen_after ∅ l1) l2 /\
     results (validate_batch s0 (l1 ++ l2)).1 =
       in_order ∅ l1 ++ in_order (seen_after ∅ l1) l2).
Proof.
  intros H.
  assert (Hs : forall s, (validate s d).2 = s).
  { intros s. by rewrite (validate_Invalid s d e H). }
  split; [apply Hs |]. split.
  { by rewrite (validate_Invalid seen d e H). }
  split.
  { intros d'. by rewrite Hs. }
  intros s0 l1 l2. rewrite !validate_batch_results, !in_order_app.
  cbn [in_order]. by rewrite Hs.
Qed.

(** *** C2 *)

(** C2. [validate_batch] starts from the empty tracking set whatever the set
    was before, and its result list has one entry per record, the entry at
    position [i] being what [validate] returns for record [i] after the
    records before it have been validated first to last. *)
Theorem validate_batch_in_order (seen : gset duplicate_key) (invoices : list dict) :
  List.length (results (validate_batch seen invoices).1) = List.length invoices /\
  (forall i d, invoices !! i = Some d ->
     results (validate_batch seen invoices).1 !! i =
       Some (validate (seen_after ∅ (take i invoices)) d).1) /\
  results (validate_batch seen invoices).1 = in_order ∅ invoices /\
  (validate_batch seen invoices).2 = seen_after ∅ invoices.
Proof.
  rewrite validate_batch_results. repeat split.
  - apply in_order_length.
  - intros i d H. by apply in_order_lookup.
  - unfold validate_batch. by rewrite validate_loop_spec.
Qed.

(** *** C3 *)

Lemma validate_seen_elem (seen : gset duplicate_key) (d : dict) (k : duplicate_key) :
  k ∈ (validate seen d).2 <->
  k ∈ seen \/ exists inv, Invoice_new d = Ok inv /\ key_of inv = k.
Proof.
  rewrite validate_seen. destruct (Invoice_new d) as [inv|e].
  - rewrite elem_of_union, elem_of_singleton. split.
    + intros [->|Hk]; [right; eauto | by left].
    + intros [Hk|(inv' & [= <-] & <-)]; [by right | by left].
  - split; [by left |]. intros [Hk|(inv' & Hd & _)]; [exact Hk | discriminate].
Qed.

Lemma seen_after_elem (seen : gset duplicate_key) (l : list dict) (k : duplicate_key) :
  k ∈ seen_after seen l <->
  k ∈ seen \/ exists j d inv, l !! j = Some d /\ Invoice_new d = Ok inv /\ key_of inv = k.
Proof.
  revert seen. induction l as [|d l IH]; intros seen.
  - simpl. split; [by left |]. intros [H|(j & d & inv & H & _)]; [exact H | discriminate].
  - change (seen_after seen (d :: l)) with (seen_after (validate seen d).2 l).
    rewrite (IH (validate seen d).2), validate_seen_elem. split.
    + intros [[H|(inv & Hd & Hk)]|(j & d' & inv & Hj & Hd & Hk)].
      * by left.
      * right. exists O, d, inv. auto.
      * right. exists (S j), d', inv. auto.
    + intros [H|(j & d' & inv & Hj & Hd & Hk)].
      * left. by left.
      * destruct j as [|j]; simpl in Hj.
        -- injection Hj as ->. left. right. eauto.
        -- right. exists j, d', inv. auto.
Qed.

Lemma key_of_eq (inv : Invoice) :
  key_of inv = (invoice_number inv, seller_name inv, isoformat <$> invoice_date inv).
Proof. unfold key_of. by destruct (invoice_date inv). Qed.

(** C3. The key of a built invoice is the triple of its invoice number, its
    seller name and its invoice date as ISO text, [YYYY-MM-DD] (a built
    invoice always has the date). The duplicate error is in the result exactly when that triple
    is already in the tracking set; then the set stays as it is, otherwise
    the triple is added and no duplicate error is emitted. In a batch this
    flags a record exactly when an earlier record of the batch was built
    with the same triple: never the first occurrence, always the later
    ones. Right after a reset no record is flagged. *)
Theorem duplicate_flag_iff_seen (seen : gset duplicate_key) (d : dict) (inv : Invoice) :
  Invoice_new d = Ok inv ->
  let key : duplicate_key :=
    (invoice_number inv, seller_name inv, isoformat <$> invoice_date inv) in
  (exists issued, invoice_date inv = Some issued /\
     key = (invoice_number inv, seller_name inv, Some (isoformat issued))) /\
  isoformat (Date 2024 1 15) = "2024-01-15" /\
  isoformat (Date 2024 12 31) = "2024-12-31" /\
  isoformat (Date 987 6 5) = "0987-06-05" /\
  (emits duplicate_tag (errors (validate seen d).1) = true <-> key ∈ seen) /\
  (key ∈ seen -> (validate seen d).2 = seen) /\
  (key ∉ seen -> (validate seen d).2 = {[key]} ∪ seen) /\
  emits duplicate_tag (errors (validate (reset_duplicate_tracking seen) d).1) = false /\
  (forall s0 invoices i,
     invoices !! i = Some d ->
     exists r, results (validate_batch s0 invoices).1 !! i = Some r /\
       (emits duplicate_tag (errors r) = true <->
        exists j d' inv', (j < i)%nat /\ invoices !! j = Some d' /\
          Invoice_new d' = Ok inv' /\
          (invoice_number inv', seller_name inv', isoformat <$> invoice_date inv') = key)).
Proof.
  intros H key. subst key. rewrite <- (key_of_eq inv).
  split; [| split; [| split; [| split; [| split; [| split; [| split; [| split]]]]]]].
  - destruct (Invoice_new_has_date d inv H) as [issued Hi]. exists issued.
    split; [exact Hi |]. by rewrite key_of_eq, Hi.
  - reflexivity.
  - reflexivity.
  - reflexivity.
  - rewrite (validate_emits_duplicate seen d inv H). apply bool_decide_eq_true.
  - intros Hin. rewrite validate_seen, H.
    apply subseteq_union_1_L. by apply singleton_subseteq_l.
  - intros _. by rewrite validate_seen, H.
  - rewrite (validate_emits_duplicate _ d inv H). unfold reset_duplicate_tracking.
    apply bool_decide_eq_false_2, not_elem_of_empty.
  - intros s0 invoices i Hi. eexists. split.
    + rewrite validate_batch_results. by apply in_order_lookup.
    + rewrite (validate_emits_duplicate _ d inv H), bool_decide_eq_true, seen_after_elem.
      split.
      * intros [Hin|(j & d' & inv' & Hj & Hd & Hk)]; [by apply elem_of_empty in Hin |].
        exists j, d', inv'. apply lookup_take_Some in Hj as [Hj Hlt].
        rewrite <- key_of_eq. auto.
      * intros (j & d' & inv' & Hlt & Hj & Hd & Hk). right.
        exists j, d', inv'. rewrite <- key_of_eq in Hk.
        split; [| auto]. by rewrite lookup_take_lt.
Qed.

(** *** C4 *)

Lemma counter_incr_lookup (c : gmap string nat) (k t : string) :
  default O (counter_incr c k !! t) =
  (default O (c !! t) + if bool_decide (k = t) then 1 else 0)%nat.
Proof.
  unfold counter_incr. destruct (decide (k = t)) as [->|Hne].
  - rewrite lookup_insert_eq, bool_decide_eq_true_2 by reflexivity. simpl. lia.
  - rewrite lookup_insert_ne, bool_decide_eq_false_2 by assumption. lia.
Qed.

Lemma occurrences_cons (t e : string) (errs : list string) :
  occurrences t (e :: errs) =
  ((if bool_decide (error_type e = t) then 1 else 0) + occurrences t errs)%nat.
Proof.
  unfold occurrences. rewrite filter_cons.
  destruct (decide (error_type e = t)) as [H|H].
  - by rewrite bool_decide_eq_true_2.
  - by rewrite bool_decide_eq_false_2.
Qed.

Lemma count_errors_lookup (c : gmap string nat) (errs : list string) (t : string) :
  default O (count_errors c errs !! t) = (default O (c !! t) + occurrences t errs)%nat.
Proof.
  revert c. induction errs as [|e errs IH]; intros c.
  - simpl. unfold occurrences. simpl. lia.
  - change (count_errors c (e :: errs))
      with (count_errors (counter_incr c (error_type e)) errs).
    rewrite IH, counter_incr_lookup, occurrences_cons. lia.
Qed.

Lemma add_count_comm (j1 j2 : string) (z1 z2 y : nat) :
  (z1 + (z2 + y) = z2 + (z1 + y))%nat.
Proof. lia. Qed.

Lemma counter_total_incr (c : gmap string nat) (k : string) :
  counter_total (counter_incr c k) = S (counter_total c).
Proof.
  unfold counter_total, counter_incr. destruct (c !! k) as [n|] eqn:Hk; simpl.
  - rewrite <- insert_delete_eq.
    rewrite map_fold_insert_L; [| intros; apply add_count_comm; assumption | apply lookup_delete_eq].
    rewrite (map_fold_delete_L _ _ k n c); [| intros; apply add_count_comm; assumption | exact Hk].
    reflexivity.
  - rewrite map_fold_insert_L; [| intros; apply add_count_comm; assumption | exact Hk].
    reflexivity.
Qed.

Lemma count_errors_total (c : gmap string nat) (errs : list string) :
  counter_total (count_errors c errs) = (counter_total c + List.length errs)%nat.
Proof.
  revert c. induction errs as [|e errs IH]; intros c.
  - simpl. lia.
  - change (count_errors c (e :: errs))
      with (count_errors (counter_incr c (error_type e)) errs).
    rewrite IH, counter_total_incr. simpl. lia.
Qed.

(** A counter only holds a key once it has counted it. *)
Lemma count_errors_positive (c : gmap string nat) (errs : list string) :
  (forall k n, c !! k = Some n -> (0 < n)%nat) ->
  forall k n, count_errors c errs !! k = Some n -> (0 < n)%nat.
Proof.
  revert c. induction errs as [|e errs IH]; intros c Hc; [exact Hc |].
  change (count_errors c (e :: errs))
    with (count_errors (counter_incr c (error_type e)) errs).
  apply IH. intros k n. unfold counter_incr.
  destruct (decide (error_type e = k)) as [->|Hne].
  - rewrite lookup_insert_eq. intros [= <-]. lia.
  - rewrite lookup_insert_ne by assumption. apply Hc.
Qed.

Lemma in_order_is_valid (seen : gset duplicate_key) (l : list dict) :
  Forall (fun r => is_valid r = true <-> errors r = []) (in_order seen l).
Proof.
  revert seen. induction l as [|d l IH]; intros seen; cbn [in_order]; constructor.
  - apply validate_is_valid.
  - apply IH.
Qed.

Lemma valid_plus_flawed (rs : list ValidationResult) :
  Forall (fun r => is_valid r = true <-> errors r = []) rs ->
  (List.length (filter (fun r => is_valid r = true) rs) +
   List.length (filter (fun r => errors r <> []) rs) = List.length rs)%nat.
Proof.
  induction 1 as [|r rs Hr _ IH]; [reflexivity |].
  rewrite !filter_cons.
  destruct (decide (is_valid r = true)) as [Hv|Hv],
           (decide (errors r <> [])) as [He|He]; simpl.
  - apply Hr in Hv. contradiction.
  - lia.
  - lia.
  - exfalso. apply Hv, Hr. destruct (errors r); [reflexivity | by destruct He].
Qed.

Lemma append_cons (a : ascii) (s t : string) :
  String a s +:+ t = String a (s +:+ t).
Proof. reflexivity. Qed.

Lemma contains_append_sep (c : ascii) (s rest : string) :
  contains c (s +:+ String c rest) = true.
Proof.
  induction s as [|a s IH].
  - change (EmptyString +:+ String c rest) with (String c rest). simpl.
    by rewrite Ascii.eqb_refl.
  - rewrite append_cons. simpl. rewrite IH. apply orb_true_r.
Qed.

Lemma split_head_append_sep (c : ascii) (s rest : string) :
  contains c s = false -> split_head c (s +:+ String c rest) = s.
Proof.
  induction s as [|a s IH]; intros H.
  - change (EmptyString +:+ String c rest) with (String c rest). simpl.
    by rewrite Ascii.eqb_refl.
  - simpl in H. apply orb_false_iff in H as [Ha Hs].
    rewrite append_cons. simpl. rewrite Ha. by rewrite IH.
Qed.

Lemma error_type_tagged (cat rest : string) :
  contains ":" cat = false -> error_type (cat +:+ ":" +:+ rest) = cat.
Proof.
  intros H. unfold error_type.
  change (":" +:+ rest) with (String ":" rest).
  by rewrite contains_append_sep, split_head_append_sep.
Qed.

Lemma error_type_untagged (error : string) :
  contains ":" error = false -> error_type error = "unknown".
Proof. unfold error_type. by intros ->. Qed.

(** C4. The summary of a batch of [N] records of which [K] come back with a
    non-empty error list reports [N] records, [N - K] valid and [K]
    invalid; its counter maps each category to the number of error strings of
    the whole batch that fall in it, holds no other key, and its counts add
    up to the number of error strings. The category of an error string is
    its text before the first colon, or [unknown] when it has no colon. *)
Theorem validate_batch_summary (seen : gset duplicate_key) (invoices : list dict) :
  let report := (validate_batch seen invoices).1 in
  let N := List.length invoices in
  let K := List.length (filter (fun r => errors r <> []) (results report)) in
  total_invoices (summary report) = N /\
  valid_invoices (summary report) = (N - K)%nat /\
  invalid_invoices (summary report) = K /\
  (forall cat,
     default O (error_counts (summary report) !! cat) =
     occurrences cat (all_errors (results report))) /\
  (forall cat,
     error_counts (summary report) !! cat = None <->
     occurrences cat (all_errors (results report)) = O) /\
  counter_total (error_counts (summary report)) =
    List.length (all_errors (results report)) /\
  (forall cat rest, contains ":" cat = false ->
                    error_type (cat +:+ ":" +:+ rest) = cat) /\
  (forall error, contains ":" error = false -> error_type error = "unknown").
Proof.
  intros report N K. subst report N K.
  unfold validate_batch. rewrite validate_loop_spec.
  cbn [fst snd results summary total_invoices valid_invoices invalid_invoices
       error_counts app].
  pose proof (valid_plus_flawed _ (in_order_is_valid ∅ invoices)) as Hsplit.
  pose proof (in_order_length ∅ invoices) as Hlen.
  repeat split.
  - lia.
  - lia.
  - intros cat. rewrite count_errors_lookup, lookup_empty. reflexivity.
  - intros Hnone.
    pose proof (count_errors_lookup ∅ (all_errors (in_order ∅ invoices)) cat) as Hc.
    rewrite Hnone, lookup_empty in Hc. simpl in Hc. lia.
  - intros Hzero.
    pose proof (count_errors_lookup ∅ (all_errors (in_order ∅ invoices)) cat) as Hc.
    rewrite Hzero, lookup_empty in Hc. simpl in Hc.
    destruct (count_errors ∅ (all_errors (in_order ∅ invoices)) !! cat) as [n|] eqn:Hn;
      [| reflexivity].
    apply count_errors_positive in Hn; [simpl in Hc; lia |].
    intros k m. by rewrite lookup_empty.
  - rewrite count_errors_total. unfold counter_total. rewrite map_fold_empty. lia.
  - apply error_type_tagged.
  - apply error_type_untagged.
Qed.

(** *** C5 *)

Lemma completeness_not_business (tag : string) (inv : Invoice) :
  startswith "business_rule_failed" tag = true ->
  emits tag (_validate_completeness inv) = false.
Proof.
  intros H. destruct tag as [|a tag]; [discriminate |].
  cbn [startswith] in H. apply andb_true_iff in H as [Ha _].
  apply Ascii.eqb_eq in Ha as <-.
  unfold _validate_completeness. by_cases_on_ifs.
Qed.

Lemma format_not_business (tag : string) (inv : Invoice) :
  startswith "business_rule_failed" tag = true ->
  emits tag (_validate_format inv) = false.
Proof.
  intros H. destruct tag as [|a tag]; [discriminate |].
  cbn [startswith] in H. apply andb_true_iff in H as [Ha _].
  apply Ascii.eqb_eq in Ha as <-.
  unfold _validate_format. by_cases_on_ifs.
Qed.

Lemma anomalies_not_business (tag : string) (seen : gset duplicate_key)
    (inv : Invoice) (id : value) :
  startswith "business_rule_failed" tag = true ->
  emits tag (_validate_anomalies seen inv id).1 = false.
Proof.
  intros H. destruct tag as [|a tag]; [discriminate |].
  cbn [startswith] in H. apply andb_true_iff in H as [Ha _].
  apply Ascii.eqb_eq in Ha as <-.
  unfold _validate_anomalies. cbv zeta. by_cases_on_ifs.
Qed.

Lemma validate_emits_business (tag : string) (seen : gset duplicate_key) (d : dict)
    (inv : Invoice) :
  startswith "business_rule_failed" tag = true ->
  Invoice_new d = Ok inv ->
  emits tag (errors (validate seen d).1) = emits tag (_validate_business_rules inv).
Proof.
  intros Htag H. rewrite (validate_Ok seen d inv H). cbn [fst errors].
  rewrite !emits_app, completeness_not_business, format_not_business,
    anomalies_not_business by exact Htag.
  cbn [orb]. apply orb_false_r.
Qed.

Lemma business_rules_totals (inv : Invoice) :
  emits totals_tag (_validate_business_rules inv) =
  fgt (fabs (fsub (sum (map line_total (line_items inv))) (net_total inv))) (decimal 1 2).
Proof. unfold _validate_business_rules. cbv zeta. by_cases_on_ifs. Qed.

Lemma business_rules_gross (inv : Invoice) :
  emits gross_tag (_validate_business_rules inv) =
  fgt (fabs (fsub (fadd (net_total inv) (tax_amount inv)) (gross_total inv))) (decimal 1 2).
Proof. unfold _validate_business_rules. cbv zeta. by_cases_on_ifs. Qed.

Lemma sum_compensated_cons (x : float) (rest : list float) :
  sum_compensated (x :: rest) =
  let f_result := (neumaier (fadd zero x) zero rest).1 in
  let c := (neumaier (fadd zero x) zero rest).2 in
  if float_truthy c && is_finite c then fadd f_result c else f_result.
Proof. cbn [sum_compensated]. by destruct (neumaier (fadd zero x) zero rest). Qed.

(** C5. For a record whose [Invoice] is built, the result carries the
    [totals_mismatch] error exactly when the absolute difference between the
    sum of the line totals and [net_total] is above 0.01, and the
    [gross_total_mismatch] error exactly when the absolute difference between
    [net_total + tax_amount] and [gross_total] is above 0.01 (all in
    binary64); when both hold the business check returns both messages, the
    totals one first. The sum is the builtin [sum] of the line totals in
    their order: up to CPython 3.11 the additions from left to right
    starting at 0; from CPython 3.12 on the same additions with Neumaier's
    compensation term, added at the end when it is finite and not zero. Ten
    line totals of 0.1 make 0.9999999999999999 (that is 1 - 2^-53) the
    first way and 1.0 the second, so against a net total of 0.99 only the second interpreter
    reports the mismatch. *)
Theorem business_rule_mismatches (seen : gset duplicate_key) (d : dict) (inv : Invoice) :
  Invoice_new d = Ok inv ->
  let errs := errors (validate seen d).1 in
  let line_totals := map line_total (line_items inv) in
  let line_items_sum :=
    if compensated_sum then sum_compensated line_totals
    else fold_left fadd line_totals zero in
  let totals_off :=
    fgt (fabs (fsub line_items_sum (net_total inv))) (decimal 1 2) in
  let gross_off :=
    fgt (fabs (fsub (fadd (net_total inv) (tax_amount inv)) (gross_total inv)))
        (decimal 1 2) in
  emits totals_tag errs = totals_off /\
  emits gross_tag errs = gross_off /\
  (totals_off = true -> gross_off = true ->
   exists m1 m2 others,
     _validate_business_rules inv = m1 :: m2 :: others /\
     startswith totals_tag m1 = true /\ startswith gross_tag m2 = true) /\
  sum_compensated [] = zero /\
  (forall x rest,
     sum_compensated (x :: rest) =
     let f_result := (neumaier (fadd zero x) zero rest).1 in
     let c := (neumaier (fadd zero x) zero rest).2 in
     if float_truthy c && is_finite c then fadd f_result c else f_result) /\
  (forall f_result c, neumaier f_result c [] = (f_result, c)) /\
  (forall f_result c x rest,
     neumaier f_result c (x :: rest) =
     let t := fadd f_result x in
     neumaier t
       (if fge (fabs f_result) (fabs x)
        then fadd c (fadd (fsub f_result t) x)
        else fadd c (fadd (fsub x t) f_result)) rest) /\
  fold_left fadd (replicate 10 (decimal 1 1)) zero =
    S754_finite false 9007199254740991 (-53) /\
  sum_compensated (replicate 10 (decimal 1 1)) = float_of_Z 1 /\
  emits totals_tag
    (errors (validate (P := Json) (I := Interpreters.CPython311) ∅
               MoreSamples.inv_tenths).1) = false /\
  emits totals_tag
    (errors (validate (P := Json) (I := Interpreters.CPython312) ∅
               MoreSamples.inv_tenths).1) = true.
Proof.
  intros H errs line_totals line_items_sum totals_off gross_off.
  assert (Hsum : line_items_sum = sum (map line_total (line_items inv))) by reflexivity.
  subst errs totals_off gross_off. rewrite Hsum. clear Hsum line_items_sum.
  split; [| split; [| split]].
  - rewrite (validate_emits_business totals_tag seen d inv) by (reflexivity || exact H).
    apply business_rules_totals.
  - rewrite (validate_emits_business gross_tag seen d inv) by (reflexivity || exact H).
    apply business_rules_gross.
  - intros H1 H2. unfold _validate_business_rules. cbv zeta. rewrite H1, H2.
    cbn [app]. eexists _, _, _. repeat split.
  - split; [reflexivity |]. split; [apply sum_compensated_cons |].
    split; [reflexivity |]. split; [reflexivity |].
    repeat split; vm_compute; reflexivity.
Qed.

(** *** C8 *)

Lemma built_invoice_due_date_silent (d : dict) (inv : Invoice) :
  Invoice_new d = Ok inv ->
  emits due_date_tag (_validate_business_rules inv) = false.
Proof.
  intros H. apply Invoice_new_Ok in H as [_ Hdates].
  unfold _validate_business_rules. cbv zeta.
  destruct (due_date inv) as [due|], (invoice_date inv) as [issued|];
    try by_cases_on_ifs.
  rewrite (Hdates due issued eq_refl eq_refl). by_cases_on_ifs.
Qed.

(** C8. A record whose [due_date] is given and earlier than its
    [invoice_date] does not build an [Invoice]: [validate] reports one
    [schema_error] and no business-rule error. And whenever an [Invoice] is
    built, the due-date test of the business rules is false, so its branch
    is never taken. *)
Theorem early_due_date_is_schema_error (seen : gset duplicate_key) (d : dict)
    (vdue vissued : value) (due issued : date) :
  d !! "due_date" = Some vdue -> vdue <> VNone -> lax_date vdue = Some due ->
  d !! "invoice_date" = Some vissued -> lax_date vissued = Some issued ->
  date_lt due issued = true ->
  (exists e, Invoice_new d = Invalid e /\
             errors (validate seen d).1 = ["schema_error: " +:+ str_validation_error e]) /\
  emits due_date_tag (errors (validate seen d).1) = false /\
  (forall d' inv,
     Invoice_new d' = Ok inv ->
     emits due_date_tag (_validate_business_rules inv) = false /\
     forall due' issued', due_date inv = Some due' -> invoice_date inv = Some issued' ->
                          date_lt due' issued' = false).
Proof.
  intros Hdue Hnone Hvdue Hiss Hviss Hlt.
  assert (Hbad : exists e, Invoice_new d = Invalid e).
  { destruct (Invoice_new d) as [inv|e] eqn:Hnew; [exfalso | eauto].
    apply Invoice_new_Ok in Hnew as [Hf Hdates].
    apply Invoice_fields_dates in Hf as [(issued0 & Hreq & Hi) Hopt].
    unfold required in Hreq. rewrite Hiss, Hviss in Hreq. injection Hreq as <-.
    unfold optional in Hopt. rewrite Hdue in Hopt.
    assert (Hd : due_date inv = Some due).
    { destruct vdue; try contradiction; rewrite Hvdue in Hopt; by injection Hopt. }
    rewrite (Hdates due issued Hd Hi) in Hlt. discriminate. }
  destruct Hbad as [e He]. rewrite (validate_Invalid seen d e He). cbn [fst errors].
  split; [eauto |]. split; [reflexivity |].
  intros d' inv Hok. split.
  - by apply (built_invoice_due_date_silent d').
  - by apply Invoice_new_Ok in Hok as [_ Hdates].
Qed.

End WithPydantic.

(** *** The theorems at the sample records *)

Import Interpreters.

Lemma validate_schema_error_witness :
  Invoice_new Samples.inv_late =
    Invalid [Due_date_before_invoice_date (Date 2024 1 10) (Date 2024 1 15)] /\
  is_valid (validate ∅ Samples.inv_late).1 = false /\
  List.length (errors (validate ∅ Samples.inv_late).1) = 1%nat /\
  (validate ∅ Samples.inv_late).2 = ∅.
Proof.
  assert (H : Invoice_new Samples.inv_late =
              Invalid [Due_date_before_invoice_date (Date 2024 1 10) (Date 2024 1 15)])
    by (vm_compute; reflexivity).
  split; [exact H |].
  destruct (validate_schema_error ∅ _ _ H) as (Hv & He & _ & _ & Hs).
  split; [exact Hv |]. split; [| exact Hs]. rewrite He. reflexivity.
Defined.

Lemma schema_error_keeps_tracking_witness :
  Invoice_new MoreSamples.inv_nan = Invalid [Not_greater_equal "net_total"] /\
  (validate ∅ MoreSamples.inv_nan).2 = ∅ /\
  results (validate_batch ∅ ([] ++ MoreSamples.inv_nan :: [Samples.inv_001])).1 =
    in_order ∅ [] ++ (validate (seen_after ∅ []) MoreSamples.inv_nan).1
      :: in_order (seen_after ∅ []) [Samples.inv_001].
Proof.
  assert (H : Invoice_new MoreSamples.inv_nan = Invalid [Not_greater_equal "net_total"])
    by (vm_compute; reflexivity).
  split; [exact H |].
  destruct (schema_error_keeps_tracking ∅ _ _ H) as (Hs & _ & _ & Hbatch).
  split; [exact Hs |]. exact (proj1 (Hbatch ∅ [] [Samples.inv_001])).
Defined.

Lemma validate_batch_in_order_witness :
  List.length (results (validate_batch ∅ [Samples.inv_001; Samples.inv_late]).1) = 2%nat.
Proof. exact (proj1 (validate_batch_in_order ∅ [Samples.inv_001; Samples.inv_late])). Defined.

Lemma validate_batch_summary_witness :
  let report := (validate_batch ∅ [Samples.inv_001; Samples.inv_late]).1 in
  total_invoices (summary report) = 2%nat /\
  counter_total (error_counts (summary report)) =
    List.length (all_errors (results report)).
Proof.
  pose proof (validate_batch_summary ∅ [Samples.inv_001; Samples.inv_late]) as H.
  cbv zeta in H. destruct H as (H1 & _ & _ & _ & _ & H6 & _).
  cbv zeta. split; [exact H1 | exact H6].
Defined.

Lemma duplicate_flag_iff_seen_witness :
  Invoice_new Samples.inv_001 = Ok Samples.built_001 /\
  emits duplicate_tag
    (errors (validate {[("INV-001", "Seller", Some "2024-01-15")]} Samples.inv_001).1)
    = true /\
  (validate ∅ Samples.inv_001).2 = {[("INV-001", "Seller", Some "2024-01-15")]} ∪ ∅.
Proof.
  assert (H : Invoice_new Samples.inv_001 = Ok Samples.built_001)
    by (vm_compute; reflexivity).
  split; [exact H |]. split.
  - destruct (duplicate_flag_iff_seen {[("INV-001", "Seller", Some "2024-01-15")]} _ _ H)
      as (_ & _ & _ & _ & Hflag & _).
    apply (proj2 Hflag). apply elem_of_singleton. reflexivity.
  - destruct (duplicate_flag_iff_seen ∅ _ _ H) as (_ & _ & _ & _ & _ & _ & Hnew & _).
    apply Hnew. apply not_elem_of_empty.
Defined.

Lemma business_rule_mismatches_witness :
  Invoice_new Samples.inv_mismatched = Ok Samples.built_mismatched /\
  emits totals_tag (errors (validate ∅ Samples.inv_mismatched).1) = true /\
  emits gross_tag (errors (validate ∅ Samples.inv_mismatched).1) = true.
Proof.
  assert (H : Invoice_new Samples.inv_mismatched = Ok Samples.built_mismatched)
    by (vm_compute; reflexivity).
  split; [exact H |].
  destruct (business_rule_mismatches ∅ _ _ H) as (H1 & H2 & _).
  split; [rewrite H1 | rewrite H2]; vm_compute; reflexivity.
Defined.

Lemma early_due_date_is_schema_error_witness :
  date_lt (Date 2024 1 10) (Date 2024 1 15) = true /\
  (exists e, Invoice_new Samples.inv_late = Invalid e /\
             errors (validate ∅ Samples.inv_late).1 =
               ["schema_error: " +:+ str_validation_error e]) /\
  emits due_date_tag (errors (validate ∅ Samples.inv_late).1) = false.
Proof.
  split; [reflexivity |].
  destruct (early_due_date_is_schema_error ∅ Samples.inv_late
              (VStr "2024-01-10") (VStr "2024-01-15") (Date 2024 1 10) (Date 2024 1 15))
    as (H1 & H2 & _);
    [vm_compute; reflexivity | discriminate | vm_compute; reflexivity
    | vm_compute; reflexivity | vm_compute; reflexivity | reflexivity |].
  split; assumption.
Defined.

(** A record whose net total is nan does not build an [Invoice]: the answer
    is one schema error, with no key tracked, and the record that follows it
    in a batch is not flagged. *)
Example nan_total_is_schema_error :
  is_ok (Invoice_new MoreSamples.inv_nan) = false /\
  error_type <$> errors (validate ∅ MoreSamples.inv_nan).1 = ["schema_error"] /\
  (validate ∅ MoreSamples.inv_nan).2 = ∅ /\
  (emits duplicate_tag <$> (errors <$>
     results (validate_batch ∅ [MoreSamples.inv_nan; Samples.inv_001]).1))
    = [false; false].
Proof. vm_compute. repeat split. Qed.

(** The duplicate test of the test suite: the same record twice is flagged
    the second time only, and not even then after a reset in between. *)
Example duplicate_detection_twice :
  let first := validate ∅ Samples.inv_001 in
  let second := validate first.2 Samples.inv_001 in
  let after_reset := validate (reset_duplicate_tracking first.2) Samples.inv_001 in
  emits duplicate_tag (errors first.1) = false /\
  emits duplicate_tag (errors second.1) = true /\
  emits duplicate_tag (errors after_reset.1) = false.
Proof. vm_compute. repeat split. Qed.

(** A batch of four: a valid record, the same record again, a record with an
    early due date and a record with two mismatches. *)
Example batch_of_four :
  let report :=
    (validate_batch ∅ [Samples.inv_001; Samples.inv_001; Samples.inv_late;
                       Samples.inv_mismatched]).1 in
  is_valid <$> results report = [true; false; false; false] /\
  total_invoices (summary report) = 4%nat /\
  valid_invoices (summary report) = 1%nat /\
  invalid_invoices (summary report) = 3%nat /\
  error_counts (summary report) !! "anomaly_detected" = Some 1%nat /\
  error_counts (summary report) !! "schema_error" = Some 1%nat /\
  error_counts (summary report) !! "business_rule_failed" = Some 2%nat.
Proof. vm_compute. repeat split. Qed.

End ValidatorFacts.

(** ** The extractors *)

Module ExtractorFacts.
Import Py Patterns Extractor ExtractSpec.

(** [s.replace(",", "")] keeps the characters that are not a comma, in
    their order. *)
Lemma remove_char_filter (c : ascii) (s : string) :
  list_ascii_of_string (remove_char c s) =
  List.filter (fun a => negb (Ascii.eqb a c)) (list_ascii_of_string s).
Proof.
  induction s as [|a s IH]; [reflexivity |].
  cbn [remove_char list_ascii_of_string List.filter].
  destruct (Ascii.eqb a c); cbn [negb list_ascii_of_string]; by rewrite IH.
Qed.

Lemma remove_char_gone (c : ascii) (s : string) : contains c (remove_char c s) = false.
Proof.
  induction s as [|a s IH]; [reflexivity |]. cbn [remove_char].
  destruct (Ascii.eqb a c) eqn:Ha; [exact IH |]. cbn [contains]. by rewrite Ha, IH.
Qed.

Section WithLibrary.
Context {T : Tables} {L : Library} {I : Interpreter}.

Lemma first_match_None (patterns : list (string -> option string)) (text : string) :
  first_match patterns text = None <-> Forall (fun p => p text = None) patterns.
Proof.
  induction patterns as [|p ps IH]; simpl.
  - split; [constructor | reflexivity].
  - destruct (p text) as [g|] eqn:Hp.
    + split; [discriminate |]. intros H. inversion H; subst. congruence.
    + rewrite IH. split; [by constructor | by inversion 1].
Qed.

(** *** C9 *)

Lemma extract_amount_from_app (before after : list Pattern) (text : string) :
  Forall (unusable text) before ->
  extract_amount_from (before ++ after) text = extract_amount_from after text.
Proof.
  induction 1 as [|p ps Hp _ IH]; simpl; [reflexivity |].
  destruct Hp as [->|(g & -> & ->)]; exact IH.
Qed.

Lemma extract_amount_from_None (patterns : list Pattern) (text : string) :
  extract_amount_from patterns text = Return None <-> Forall (unusable text) patterns.
Proof.
  induction patterns as [|p ps IH]; simpl.
  - split; [constructor | reflexivity].
  - destruct (p text) as [[g| |]|] eqn:Hp.
    + destruct (float_of_str (remove_char "," g)) as [v|] eqn:Hv.
      * split; [discriminate |]. inversion 1 as [|? ? Hu _]; subst.
        destruct Hu as [Hu|(g' & Hg & Hu)]; congruence.
      * rewrite IH. split.
        -- intros H. constructor; [right; eauto | exact H].
        -- by inversion 1.
    + split; [discriminate |]. inversion 1 as [|? ? Hu _]; subst.
      destruct Hu as [Hu|(g' & Hg & _)]; congruence.
    + split; [discriminate |]. inversion 1 as [|? ? Hu _]; subst.
      destruct Hu as [Hu|(g' & Hg & _)]; congruence.
    + rewrite IH. split.
      * intros H. constructor; [by left | exact H].
      * by inversion 1.
Qed.

(** With patterns whose group 1 takes part in every match, the loop runs to
    its end or to a parsed number. *)
Lemma extract_amount_from_returns (patterns : list Pattern) (text : string) :
  Forall (fun p => forall m, p text = Some m -> exists g, m = Captured g) patterns ->
  exists r, extract_amount_from patterns text = Return r.
Proof.
  induction 1 as [|p ps Hp _ IH]; simpl; [eauto |].
  destruct (p text) as [m|] eqn:Hm; [| exact IH].
  destruct (Hp m eq_refl) as [g ->].
  destruct (float_of_str (remove_char "," g)); eauto.
Qed.

(** C9. Whatever the text and the pattern list: at the first pattern that
    matches with a captured group, the number is parsed from the capture with
    its commas removed, that is from the characters of the capture that are
    not a comma, in their order ([1,234.50] is read as [1234.50]); when that
    parse fails the search goes on with the patterns after it; the answer
    is [None] exactly when every pattern either does not match or captures
    something that does not parse; and with patterns whose group 1 takes
    part in every match the call returns. Without a pattern list the table
    [AMOUNT_PATTERNS] is used. *)
Theorem extract_amount_strips_and_skips (text : string) (patterns : list Pattern) :
  let stripped (g : string) : string :=
    string_of_list_ascii
      (List.filter (fun a => negb (Ascii.eqb a ",")) (list_ascii_of_string g)) in
  (forall before p after g,
     patterns = before ++ p :: after ->
     Forall (unusable text) before ->
     p text = Some (Captured g) ->
     match float_of_str (stripped g) with
     | Some v => extract_amount text (Some patterns) = Return (Some v)
     | None => extract_amount text (Some patterns) = extract_amount text (Some after)
     end) /\
  (forall p g, unusable text p ->
     p text = Some (Captured g) -> float_of_str (stripped g) = None) /\
  (extract_amount text (Some patterns) = Return None <->
   Forall (unusable text) patterns) /\
  (Forall (fun p => forall m, p text = Some m -> exists g, m = Captured g) patterns ->
   exists r, extract_amount text (Some patterns) = Return r) /\
  extract_amount text None = extract_amount text (Some (map with_group AMOUNT_PATTERNS)) /\
  stripped "1,234,567.50" = "1234567.50" /\
  (forall g, contains "," (stripped g) = false).
Proof.
  intros stripped.
  assert (Hs : forall g, stripped g = remove_char "," g).
  { intros g. subst stripped. cbv beta. rewrite <- remove_char_filter.
    apply string_of_list_ascii_of_string. }
  split; [| split; [| split; [| split; [| split; [| split]]]]].
  - intros before p after g -> Hbefore Hp. unfold extract_amount. rewrite Hs.
    rewrite (extract_amount_from_app before (p :: after) text Hbefore). simpl.
    rewrite Hp. by destruct (float_of_str (remove_char "," g)).
  - intros p g [Hu|(g' & Hg & Hu)] Hp; [congruence |].
    rewrite Hs. rewrite Hg in Hp. by injection Hp as <-.
  - apply extract_amount_from_None.
  - apply extract_amount_from_returns.
  - reflexivity.
  - reflexivity.
  - intros g. rewrite Hs. apply remove_char_gone.
Qed.

(** *** C7 *)

Lemma table_amount_returns (table : list (string -> option string)) (text : string) :
  exists r, extract_amount_from (map with_group table) text = Return r.
Proof.
  induction table as [|p ps IH]; simpl; [eauto |].
  unfold with_group at 1. destruct (p text) as [g|]; simpl; [| exact IH].
  destruct (float_of_str (remove_char "," g)); eauto.
Qed.

Ltac read_field :=
  try (rewrite lookup_insert_ne by done); reflexivity.

(** A date field is computed without raising exactly when dateutil reads
    the text or raises what [parse_date] catches. *)
Lemma date_field_returns (s : option string) :
  date_parses s <-> exists v, date_field s = Return v.
Proof.
  destruct s as [[|a r]|]; cbn [date_parses date_field]; try (split; eauto; fail).
  unfold parse_date.
  destruct (dateutil_parse (String a r)) as [date_obj|e].
  - split; eauto.
  - destruct (caught e); split; eauto; try discriminate.
    intros [v Hv]. discriminate.
Qed.

Lemma date_field_raises (s : option string) (e : exn) :
  date_field s = Raise e <->
  exists a r, s = Some (String a r) /\ dateutil_parse (String a r) = Raise e /\
              caught e = false.
Proof.
  destruct s as [[|a r]|]; cbn [date_field];
    try (split; [discriminate | intros (a' & r' & Hs & _); discriminate]).
  unfold parse_date. split.
  - destruct (dateutil_parse (String a r)) as [date_obj|e'] eqn:Hp; [discriminate |].
    destruct (caught e') eqn:Hc; [discriminate |].
    intros [= <-]. eauto.
  - intros (a' & r' & [= <- <-] & -> & ->). reflexivity.
Qed.

(** What a date field holds: [None] when nothing was found or the text
    found did not parse, else the ISO text of the date. *)
Lemma date_field_value (s : option string) (v : value) :
  date_field s = Return v ->
  (s = None -> v = VNone) /\
  (forall t, s = Some t -> parse_date t = Return None -> v = VNone) /\
  (v = VNone \/ exists t date_obj, s = Some t /\ dateutil_parse t = Return date_obj /\
                                   v = VStr (isoformat date_obj)).
Proof.
  destruct s as [[|a r]|]; cbn [date_field].
  - intros [= <-]. repeat split; auto.
  - destruct (parse_date (String a r)) as [[iso|]|e] eqn:Hp; cbn [mbind outcome_bind bind opt_str];
      try discriminate; intros [= <-].
    + split; [discriminate |]. split; [intros t [= <-]; congruence |].
      right. unfold parse_date in Hp.
      destruct (dateutil_parse (String a r)) as [date_obj|e] eqn:Hd.
      * injection Hp as <-. eauto.
      * destruct (caught e); discriminate.
    + repeat split; auto.
  - intros [= <-]. repeat split; auto.
Qed.

(** The record in terms of the two date fields, whatever they give. *)
Lemma extract_invoice_from_text_cases (text : string) (invoice_id : option string) :
  exists net tax gross,
    extract_net_total text = Return net /\
    extract_tax_amount text = Return tax /\
    extract_gross_total text = Return gross /\
    match date_field (extract_date text None), date_field (extract_due_date text) with
    | Raise e, _ => extract_invoice_from_text text invoice_id = Raise e
    | Return _, Raise e => extract_invoice_from_text text invoice_id = Raise e
    | Return invoice_date, Return due_date =>
        exists d,
         extract_invoice_from_text text invoice_id = Return d /\
         d !! "invoice_number" =
           Some (VStr (str_or (extract_invoice_number text) "UNKNOWN")) /\
         d !! "invoice_date" = Some invoice_date /\
         d !! "due_date" = Some due_date /\
         d !! "seller_name" = Some (VStr (str_or (extract_seller_name text) "")) /\
         d !! "seller_address" = Some (opt_str (extract_address text)) /\
         d !! "seller_tax_id" = Some (opt_str (extract_tax_id text)) /\
         d !! "buyer_name" = Some (VStr (str_or (extract_buyer_name text) "")) /\
         d !! "buyer_address" = Some VNone /\
         d !! "buyer_tax_id" = Some VNone /\
         d !! "currency" = Some (VStr (str_or (extract_currency text) "USD")) /\
         d !! "net_total" = Some (VFloat (float_or net zero)) /\
         d !! "tax_amount" = Some (VFloat (float_or tax zero)) /\
         d !! "gross_total" = Some (VFloat (float_or gross zero)) /\
         d !! "line_items" = Some (VList (map line_item_entry (extract_line_items text)))
    end.
Proof.
  destruct (table_amount_returns NET_TOTAL_PATTERNS text) as [net Hnet].
  destruct (table_amount_returns TAX_AMOUNT_PATTERNS text) as [tax Htax].
  destruct (table_amount_returns GROSS_TOTAL_PATTERNS text) as [gross Hgross].
  exists net, tax, gross.
  assert (Hn : extract_net_total text = Return net) by exact Hnet.
  assert (Ht : extract_tax_amount text = Return tax) by exact Htax.
  assert (Hg : extract_gross_total text = Return gross) by exact Hgross.
  split; [exact Hn |]. split; [exact Ht |]. split; [exact Hg |].
  unfold extract_invoice_from_text. rewrite Hn, Ht, Hg. cbv zeta.
  change (mbind ?k (Return ?a)) with (k a). cbv beta.
  destruct (date_field (extract_date text None)) as [invoice_date|e]; [| reflexivity].
  change (mbind ?k (Return ?a)) with (k a). cbv beta.
  destruct (date_field (extract_due_date text)) as [due_date|e]; [| reflexivity].
  change (mbind ?k (Return ?a)) with (k a). cbv beta.
  destruct invoice_id as [[|a s]|];
    (eexists; split; [reflexivity |]; repeat split; read_field).
Qed.

(** What the returned record holds under each field. *)
Lemma extract_invoice_from_text_fields (text : string) (invoice_id : option string)
    (d : dict) :
  extract_invoice_from_text text invoice_id = Return d ->
  exists net tax gross invoice_date due_date,
    extract_net_total text = Return net /\
    extract_tax_amount text = Return tax /\
    extract_gross_total text = Return gross /\
    date_field (extract_date text None) = Return invoice_date /\
    date_field (extract_due_date text) = Return due_date /\
    d !! "invoice_number" = Some (VStr (str_or (extract_invoice_number text) "UNKNOWN")) /\
    d !! "invoice_date" = Some invoice_date /\
    d !! "due_date" = Some due_date /\
    d !! "seller_name" = Some (VStr (str_or (extract_seller_name text) "")) /\
    d !! "seller_address" = Some (opt_str (extract_address text)) /\
    d !! "seller_tax_id" = Some (opt_str (extract_tax_id text)) /\
    d !! "buyer_name" = Some (VStr (str_or (extract_buyer_name text) "")) /\
    d !! "buyer_address" = Some VNone /\
    d !! "buyer_tax_id" = Some VNone /\
    d !! "currency" = Some (VStr (str_or (extract_currency text) "USD")) /\
    d !! "net_total" = Some (VFloat (float_or net zero)) /\
    d !! "tax_amount" = Some (VFloat (float_or tax zero)) /\
    d !! "gross_total" = Some (VFloat (float_or gross zero)) /\
    d !! "line_items" = Some (VList (map line_item_entry (extract_line_items text))).
Proof.
  intros Hd.
  destruct (extract_invoice_from_text_cases text invoice_id)
    as (net & tax & gross & Hn & Ht & Hg & Hcases).
  destruct (date_field (extract_date text None)) as [invoice_date|e];
    [| rewrite Hcases in Hd; discriminate].
  destruct (date_field (extract_due_date text)) as [due_date|e];
    [| rewrite Hcases in Hd; discriminate].
  destruct Hcases as (d' & Hd' & F). rewrite Hd' in Hd. injection Hd as ->.
  exists net, tax, gross, invoice_date, due_date.
  split; [exact Hn |]. split; [exact Ht |]. split; [exact Hg |].
  split; [reflexivity |]. split; [reflexivity |]. exact F.
Qed.

(** The extraction returns exactly when both date fields are computed
    without raising; nothing else in it can raise. *)
Lemma extraction_returns_iff (text : string) (invoice_id : option string) :
  (exists d, extract_invoice_from_text text invoice_id = Return d) <->
  date_parses (extract_date text None) /\ date_parses (extract_due_date text).
Proof.
  rewrite !date_field_returns.
  destruct (extract_invoice_from_text_cases text invoice_id)
    as (net & tax & gross & _ & _ & _ & Hcases).
  destruct (date_field (extract_date text None)) as [invoice_date|e].
  - destruct (date_field (extract_due_date text)) as [due_date|e].
    + destruct Hcases as (d & Hd & _). split; eauto.
    + rewrite Hcases. split.
      * intros [d Hd]. discriminate.
      * intros [_ [v Hv]]. discriminate.
  - rewrite Hcases. split.
    + intros [d Hd]. discriminate.
    + intros [[v Hv] _]. discriminate.
Qed.


(** When dateutil raises an exception other than the two that [parse_date]
    catches on the invoice date found, the extraction raises it. *)
Lemma extract_invoice_from_text_raises (text : string) (invoice_id : option string)
    (a : ascii) (r : string) (e : exn) :
  extract_date text None = Some (String a r) ->
  dateutil_parse (String a r) = Raise e -> caught e = false ->
  extract_invoice_from_text text invoice_id = Raise e.
Proof.
  intros Hs Hp Hc.
  destruct (extract_invoice_from_text_cases text invoice_id)
    as (net & tax & gross & _ & _ & _ & Hcases).
  assert (Hf : date_field (extract_date text None) = Raise e).
  { apply date_field_raises. exists a, r. auto. }
  rewrite Hf in Hcases. exact Hcases.
Qed.

End WithLibrary.

Import Interpreters.

Lemma extract_amount_strips_and_skips_witness :
  extract_amount (L := Samples.Plain) (T := Samples.NoTables) "total 1,234.50"
    (Some [Samples.always "1.2.3"; Samples.after_label "total "]) =
  Return (Some (decimal 123450 2)).
Proof.
  assert (Hskip : Forall (unusable (L := Samples.Plain) "total 1,234.50")
                    [Samples.always "1.2.3"]).
  { constructor; [| constructor]. right. exists "1.2.3". split; reflexivity. }
  exact (proj1 (extract_amount_strips_and_skips (L := Samples.Plain)
                  (T := Samples.NoTables) "total 1,234.50"
                  [Samples.always "1.2.3"; Samples.after_label "total "])
           [Samples.always "1.2.3"] (Samples.after_label "total ") [] "1,234.50"
           eq_refl Hskip eq_refl).
Defined.


(** With a dateutil that overflows on a long number, a text whose date
    line carries one makes the extraction raise [OverflowError]. *)
Example extract_overflowing_date :
  extract_invoice_from_text (T := Samples.LabelTables) (L := MoreSamples.Overflowing)
    MoreSamples.overflowing_text None = Raise OverflowError.
Proof. vm_compute. reflexivity. Qed.

(** Extraction followed by validation on the sample text: every field is
    found but the line items, so the only complaint is the empty item sum
    against the net total. *)
Example extract_then_validate :
  match extract_invoice_from_text (T := Samples.LabelTables) (L := Samples.Plain)
          Samples.sample_text (Some "doc-1") with
  | Return d =>
      (Validator.validate (P := Schema.Json) ∅ d).1 =
      Validator.mkResult (VStr "doc-1") false
        ["business_rule_failed: totals_mismatch (line_items_sum=0.00, net_total=1035.00)"]
  | Raise _ => False
  end.
Proof. vm_compute. reflexivity. Qed.

(** The skip at work: the first pattern captures [1.2.3], which does not
    parse, the second captures [1,234.50]. *)
Example extract_amount_skip_example :
  extract_amount (L := Samples.Plain) (T := Samples.NoTables) "total 1,234.50"
    (Some [Samples.always "1.2.3"; Samples.after_label "total "]) =
  Return (Some (decimal 123450 2)).
Proof. vm_compute. reflexivity. Qed.

End ExtractorFacts.

(** ** More on the models *)

Module SchemaMore.
Import Py Schema FloatFacts SchemaFacts ExtraSpec.

Lemma is_ok_ap {A B : Type} (f : result (A -> B)) (x : result A) :
  is_ok (f <*> x) = is_ok f && is_ok x.
Proof. by destruct f, x. Qed.

Lemma is_ok_and_then_false {A B : Type} (x : result A) (k : A -> result B) :
  is_ok x = false -> is_ok (and_then x k) = false.
Proof. by destruct x. Qed.

Lemma not_ok_Invalid {A : Type} (r : result A) :
  is_ok r = false -> exists e, r = Invalid e.
Proof. destruct r as [a|e]; [discriminate | eauto]. Qed.

Section WithPydantic.
Context {P : Pydantic} {I : Interpreter}.

(** Each attribute of a built invoice is what its field validator
    returned. *)
Lemma Invoice_fields_inv (d : dict) (inv : Invoice) :
  Invoice_fields d = Ok inv ->
  and_then (required lax_str d "invoice_number") (min_length_1 "invoice_number")
    = Ok (invoice_number inv) /\
  and_then (required lax_str d "seller_name") (min_length_1 "seller_name")
    = Ok (seller_name inv) /\
  and_then (required lax_str d "buyer_name") (min_length_1 "buyer_name")
    = Ok (buyer_name inv) /\
  and_then (required lax_str d "currency") validate_currency = Ok (currency inv) /\
  and_then (required lax_float d "net_total") (ge_0 "net_total") = Ok (net_total inv) /\
  and_then (required lax_float d "tax_amount") (ge_0 "tax_amount") = Ok (tax_amount inv) /\
  and_then (required lax_float d "gross_total") (ge_0 "gross_total")
    = Ok (gross_total inv) /\
  line_items_field d = Ok (line_items inv).
Proof.
  unfold Invoice_fields. intros H. invert_fields. simpl. repeat split; assumption.
Qed.

Lemma min_length_1_Ok (k s t : string) :
  min_length_1 k s = Ok t -> t = s /\ s <> EmptyString.
Proof. destruct s; [discriminate |]. intros [= <-]. split; [reflexivity | discriminate]. Qed.

Lemma name_field_Ok (d : dict) (k s : string) :
  and_then (required lax_str d k) (min_length_1 k) = Ok s ->
  required lax_str d k = Ok s /\ s <> EmptyString.
Proof.
  intros H. apply and_then_Ok_inv in H as (t & Ht & Hm).
  apply min_length_1_Ok in Hm as [-> Hne]. auto.
Qed.

Lemma LineItem_new_sound (d : dict) (li : LineItem) :
  LineItem_new d = Ok li -> line_item_sound li.
Proof.
  unfold LineItem_new. intros H. apply and_then_Ok_inv in H as (li0 & Hf & Hv).
  unfold validate_line_total, tolerance in Hv.
  destruct (fgt _ _) eqn:Hoff in Hv; [discriminate |]. injection Hv as ->.
  apply LineItem_fields_Ok in Hf as (_ & (_ & ?) & (_ & ?) & (_ & ?)).
  repeat split; try assumption; by apply at_least_zero_not_below.
Qed.

Lemma line_items_from_Ok (i : nat) (vs : list value) (lis : list LineItem) :
  line_items_from i vs = Ok lis ->
  Forall2 (fun v li => exists d, v = VDict d /\ LineItem_new d = Ok li) vs lis.
Proof.
  revert i lis. induction vs as [|v vs IH]; intros i lis H.
  - injection H as <-. constructor.
  - cbn [line_items_from] in H.
    apply ap_Ok_inv in H as (g & tl & H & Htl & ->).
    apply ap_Ok_inv in H as (g0 & li & H & Hli & ->). injection H as <-.
    constructor; [| by apply (IH (S i))].
    unfold line_item_at in Hli. destruct v; try discriminate.
    unfold at_index in Hli. destruct (LineItem_new d) as [li'|e] eqn:Hd; [| discriminate].
    injection Hli as ->. eauto.
Qed.

Lemma line_items_field_Ok (d : dict) (lis : list LineItem) :
  line_items_field d = Ok lis ->
  (d !! "line_items" = None /\ lis = []) \/
  exists vs, d !! "line_items" = Some (VList vs) /\
    Forall2 (fun v li => exists d', v = VDict d' /\ LineItem_new d' = Ok li) vs lis.
Proof.
  unfold line_items_field. destruct (d !! "line_items") as [v|]; [| intros [= <-]; by left].
  destruct v; try discriminate. intros H. right. eexists. split; [reflexivity |].
  by apply line_items_from_Ok in H.
Qed.

End WithPydantic.
End SchemaMore.

(** ** More on the validator *)

Module ValidatorMore.
Import Py Schema Validator BatchSpec FloatFacts SchemaFacts ValidatorFacts.
Import ExtraSpec SchemaMore.

Section WithPydantic.
Context {P : Pydantic} {I : Interpreter}.

(** On a text that is not empty the test [not s or len(s.strip()) == 0] is
    its second half. *)
Lemma blank_nonempty (s : string) :
  s <> EmptyString -> blank s = (len (strip s) =? 0)%nat.
Proof. by destruct s. Qed.

(** With no line item the sum is the integer 0, and a total that is not
    below 0 is its own distance to it. *)
Lemma distance_to_zero (x t : float) :
  flt x zero = false -> fgt (fabs (fsub (sum []) x)) t = fgt x t.
Proof.
  rewrite sum_nil.
  destruct x as [[]|[]| |[] m e]; intros H; try discriminate H; reflexivity.
Qed.

Lemma Invoice_fields_is_ok (d : dict) :
  is_ok (Invoice_fields d) =
  is_ok (and_then (required lax_str d "invoice_number") (min_length_1 "invoice_number"))
  && is_ok (and_then (required lax_date d "invoice_date") (fun x => Ok (Some x)))
  && is_ok (optional lax_date d "due_date")
  && is_ok (and_then (required lax_str d "seller_name") (min_length_1 "seller_name"))
  && is_ok (optional lax_str d "seller_address")
  && is_ok (optional lax_str d "seller_tax_id")
  && is_ok (and_then (required lax_str d "buyer_name") (min_length_1 "buyer_name"))
  && is_ok (optional lax_str d "buyer_address")
  && is_ok (optional lax_str d "buyer_tax_id")
  && is_ok (and_then (required lax_str d "currency") validate_currency)
  && is_ok (and_then (required lax_float d "net_total") (ge_0 "net_total"))
  && is_ok (and_then (required lax_float d "tax_amount") (ge_0 "tax_amount"))
  && is_ok (and_then (required lax_float d "gross_total") (ge_0 "gross_total"))
  && is_ok (line_items_field d).
Proof. unfold Invoice_fields. rewrite !is_ok_ap. reflexivity. Qed.

Lemma Invoice_new_not_ok (d : dict) :
  is_ok (Invoice_fields d) = false -> exists e, Invoice_new d = Invalid e.
Proof.
  intros H. apply not_ok_Invalid. unfold Invoice_new. by apply is_ok_and_then_false.
Qed.

Ltac a_field_fails H :=
  apply Invoice_new_not_ok; rewrite Invoice_fields_is_ok, H;
  repeat (rewrite ?andb_false_r; cbn [andb]); reflexivity.

(** The name fields: an empty text does not pass [min_length=1]. *)
Lemma empty_name_refused (d : dict) (k : string) (v : value) :
  k ∈ ["invoice_number"; "seller_name"; "buyer_name"] ->
  d !! k = Some v -> lax_str v = Some EmptyString ->
  exists e, Invoice_new d = Invalid e.
Proof.
  intros Hk Hd Hv.
  assert (Hf : is_ok (and_then (required lax_str d k) (min_length_1 k)) = false).
  { unfold required. by rewrite Hd, Hv. }
  repeat (apply elem_of_cons in Hk as [-> | Hk]; [a_field_fails Hf |]).
  by apply elem_of_nil in Hk.
Qed.

Lemma unreadable_date_refused (d : dict) :
  match d !! "invoice_date" with
  | Some v => lax_date v = None
  | None => True
  end ->
  exists e, Invoice_new d = Invalid e.
Proof.
  intros Hd.
  assert (Hf : is_ok (and_then (required lax_date d "invoice_date")
                        (fun x => Ok (Some x))) = false).
  { unfold required. destruct (d !! "invoice_date") as [v|]; [by rewrite Hd | reflexivity]. }
  a_field_fails Hf.
Qed.

(** X1. A built invoice has a number, a seller and a buyer that are not
    empty, and an invoice date; so the completeness check never reports the
    date, and reports a name exactly when nothing is left of it once it is
    stripped (a name of whitespace alone, which [min_length=1] lets
    through). *)
Theorem built_invoice_completeness (d : dict) (inv : Invoice) :
  Invoice_new d = Ok inv ->
  invoice_number inv <> EmptyString /\ seller_name inv <> EmptyString /\
  buyer_name inv <> EmptyString /\
  _validate_completeness inv =
    (if (len (strip (invoice_number inv)) =? 0)%nat
     then ["missing_field: invoice_number"] else []) ++
    (if (len (strip (seller_name inv)) =? 0)%nat
     then ["missing_field: seller_name"] else []) ++
    (if (len (strip (buyer_name inv)) =? 0)%nat
     then ["missing_field: buyer_name"] else []).
Proof.
  intros H. destruct (Invoice_new_has_date d inv H) as [issued Hdate].
  apply Invoice_new_Ok in H as [H _].
  apply Invoice_fields_inv in H as (Hn & Hs & Hb & _).
  apply name_field_Ok in Hn as [_ Hn]. apply name_field_Ok in Hs as [_ Hs].
  apply name_field_Ok in Hb as [_ Hb].
  repeat (split; [assumption |]).
  unfold _validate_completeness.
  by rewrite Hdate, !blank_nonempty by assumption.
Qed.

Lemma built_totals_not_below_zero (d : dict) (inv : Invoice) :
  Invoice_new d = Ok inv ->
  flt (net_total inv) zero = false /\ flt (tax_amount inv) zero = false /\
  flt (gross_total inv) zero = false.
Proof.
  intros H. apply Invoice_new_Ok in H as [H _].
  apply Invoice_fields_inv in H as (_ & _ & _ & _ & Hn & Ht & Hg & _).
  apply required_ge_0_Ok in Hn as [_ Hn]. apply required_ge_0_Ok in Ht as [_ Ht].
  apply required_ge_0_Ok in Hg as [_ Hg].
  repeat split; by apply at_least_zero_not_below.
Qed.

(** X2. The totals of a built invoice are not below 0, so the format check
    returns nothing and no [format_error] reaches the result. *)
Theorem built_invoice_format_silent (seen : gset duplicate_key) (d : dict)
    (inv : Invoice) :
  Invoice_new d = Ok inv ->
  _validate_format inv = [] /\
  emits "format_error" (errors (validate seen d).1) = false.
Proof.
  intros H. destruct (built_totals_not_below_zero d inv H) as (Hn & Ht & Hg).
  assert (Hf : _validate_format inv = []).
  { unfold _validate_format. by rewrite Hn, Ht, Hg. }
  split; [exact Hf |].
  rewrite (validate_Ok seen d inv H). cbn [fst errors]. rewrite Hf, app_nil_r.
  rewrite !emits_app. apply orb_false_iff. split; [apply orb_false_iff; split |].
  - unfold _validate_completeness. by_cases_on_ifs.
  - unfold _validate_business_rules. cbv zeta. by_cases_on_ifs.
  - unfold _validate_anomalies. cbv zeta. by_cases_on_ifs.
Qed.

(** X3. The currency of a built invoice is one of EUR, USD and INR: it is
    what [str.upper] makes of the text the record gave. *)
Theorem built_invoice_currency (d : dict) (inv : Invoice) :
  Invoice_new d = Ok inv ->
  currency inv ∈ ["EUR"; "USD"; "INR"] /\
  exists v, required lax_str d "currency" = Ok v /\ currency inv = upper v.
Proof.
  intros H. apply Invoice_new_Ok in H as [H _].
  apply Invoice_fields_inv in H as (_ & _ & _ & Hc & _).
  apply and_then_Ok_inv in Hc as (v & Hv & Hc). unfold validate_currency in Hc.
  destruct (bool_decide_reflect (upper v ∈ allowed)) as [Hin|Hout]; [| discriminate].
  injection Hc as <-. split; [exact Hin | eauto].
Qed.

(** X4. A record whose currency, once [str.upper] is applied, is none of
    EUR, USD and INR does not build: [validate] answers with the single [schema_error] and
    leaves the tracking set alone. *)
Theorem unlisted_currency_refused (seen : gset duplicate_key) (d : dict) (v : string) :
  required lax_str d "currency" = Ok v -> upper v ∉ ["EUR"; "USD"; "INR"] ->
  exists e, Invoice_new d = Invalid e /\
    validate seen d =
      (mkResult (id_of d) false ["schema_error: " +:+ str_validation_error e], seen).
Proof.
  intros Hv Hout.
  assert (Hf : is_ok (and_then (required lax_str d "currency") validate_currency) = false).
  { rewrite Hv. cbn [and_then]. unfold validate_currency.
    by rewrite bool_decide_eq_false_2. }
  assert (Hbad : exists e, Invoice_new d = Invalid e) by a_field_fails Hf.
  destruct Hbad as [e He]. exists e. split; [exact He |]. by apply validate_Invalid.
Qed.


(** X6. For a built invoice without line items the sum is 0, so the totals
    rule fires exactly when [net_total] is above 0.01. *)
Theorem no_line_items_totals (seen : gset duplicate_key) (d : dict) (inv : Invoice) :
  Invoice_new d = Ok inv -> line_items inv = [] ->
  emits totals_tag (errors (validate seen d).1) = fgt (net_total inv) (decimal 1 2).
Proof.
  intros H Hnil.
  rewrite (validate_emits_business totals_tag seen d inv) by (reflexivity || exact H).
  rewrite business_rules_totals, Hnil. cbn [map].
  apply distance_to_zero. by apply (built_totals_not_below_zero d inv).
Qed.


(** *** Error categories *)

Lemma cat_schema (e : string) :
  error_type e = "schema_error" -> error_type e ∈ categories.
Proof. intros ->. unfold categories. set_solver. Qed.

Lemma cat_missing (e : string) :
  error_type e = "missing_field" -> error_type e ∈ categories.
Proof. intros ->. unfold categories. set_solver. Qed.

Lemma cat_format (e : string) :
  error_type e = "format_error" -> error_type e ∈ categories.
Proof. intros ->. unfold categories. set_solver. Qed.

Lemma cat_business (e : string) :
  error_type e = "business_rule_failed" -> error_type e ∈ categories.
Proof. intros ->. unfold categories. set_solver. Qed.

Lemma cat_anomaly (e : string) :
  error_type e = "anomaly_detected" -> error_type e ∈ categories.
Proof. intros ->. unfold categories. set_solver. Qed.

Ltac categorise :=
  repeat match goal with
         | |- Forall _ (_ ++ _) => apply Forall_app; split
         | |- Forall _ (if ?b then _ else _) => destruct b
         | |- Forall _ (match ?o with Some _ => _ | None => _ end) => destruct o
         | |- Forall _ [] => constructor
         | |- Forall _ (_ :: _) => constructor
         end;
  first [ apply cat_schema; reflexivity | apply cat_missing; reflexivity
        | apply cat_format; reflexivity | apply cat_business; reflexivity
        | apply cat_anomaly; reflexivity ].

Lemma completeness_categories (inv : Invoice) :
  Forall (fun e => error_type e ∈ categories) (_validate_completeness inv).
Proof. unfold _validate_completeness. categorise. Qed.

Lemma format_categories (inv : Invoice) :
  Forall (fun e => error_type e ∈ categories) (_validate_format inv).
Proof. unfold _validate_format. categorise. Qed.

Lemma business_categories (inv : Invoice) :
  Forall (fun e => error_type e ∈ categories) (_validate_business_rules inv).
Proof. unfold _validate_business_rules. cbv zeta. categorise. Qed.

Lemma anomalies_categories (seen : gset duplicate_key) (inv : Invoice) (id : value) :
  Forall (fun e => error_type e ∈ categories) (_validate_anomalies seen inv id).1.
Proof.
  unfold _validate_anomalies. cbv zeta.
  destruct (bool_decide (key_of inv ∈ seen)); cbn [fst]; categorise.
Qed.

Lemma validate_categories (seen : gset duplicate_key) (d : dict) :
  Forall (fun e => error_type e ∈ categories) (errors (validate seen d).1).
Proof.
  destruct (Invoice_new d) as [inv|e] eqn:H.
  - rewrite (validate_Ok seen d inv H). cbn [fst errors].
    apply Forall_app; split; [apply Forall_app; split; [apply Forall_app; split |] |].
    + apply completeness_categories.
    + apply format_categories.
    + apply business_categories.
    + apply anomalies_categories.
  - rewrite (validate_Invalid seen d e H). cbn [fst errors]. categorise.
Qed.

Lemma in_order_categories (seen : gset duplicate_key) (l : list dict) :
  Forall (fun e => error_type e ∈ categories) (all_errors (in_order seen l)).
Proof.
  revert seen. induction l as [|d l IH]; intros seen; [constructor |].
  cbn [in_order].
  change (all_errors (?r :: ?rs)) with (errors r ++ all_errors rs).
  apply Forall_app. split; [apply validate_categories | apply IH].
Qed.

Lemma occurrences_pos (cat : string) (errs : list string) :
  (0 < occurrences cat errs)%nat -> exists e, e ∈ errs /\ error_type e = cat.
Proof.
  unfold occurrences. intros H.
  destruct (filter (fun e => error_type e = cat) errs) as [|e l] eqn:Hf;
    [simpl in H; lia |].
  assert (He : e ∈ filter (fun e => error_type e = cat) errs) by (rewrite Hf; left).
  apply list_elem_of_filter in He as [He Hin]. eauto.
Qed.

(** X7. Every error string of a result falls in one of the five
    categories, so the counter of a batch has no other key and never the
    key [unknown]; a key it has counts at least one error. *)
Theorem error_categories (seen : gset duplicate_key) (invoices : list dict) :
  (forall d e, e ∈ errors (validate seen d).1 -> error_type e ∈ categories) /\
  (forall cat n,
     error_counts (summary (validate_batch seen invoices).1) !! cat = Some n ->
     cat ∈ categories /\ (0 < n)%nat) /\
  error_counts (summary (validate_batch seen invoices).1) !! "unknown" = None.
Proof.
  assert (Hkeys : forall cat n,
            error_counts (summary (validate_batch seen invoices).1) !! cat = Some n ->
            cat ∈ categories /\ (0 < n)%nat).
  { intros cat n. unfold validate_batch. rewrite validate_loop_spec.
    cbn [fst summary error_counts]. intros Hn.
    assert (Hpos : (0 < n)%nat).
    { eapply (count_errors_positive ∅); [| exact Hn].
      intros k m. by rewrite lookup_empty. }
    split; [| exact Hpos].
    pose proof (count_errors_lookup ∅ (all_errors (in_order ∅ invoices)) cat) as Hc.
    rewrite Hn, lookup_empty in Hc. simpl in Hc.
    destruct (occurrences_pos cat (all_errors (in_order ∅ invoices))) as (e & He & <-);
      [lia |].
    pose proof (in_order_categories ∅ invoices) as Hall.
    rewrite Forall_forall in Hall. by apply Hall. }
  split; [| split].
  - intros d e He. pose proof (validate_categories seen d) as Hall.
    rewrite Forall_forall in Hall. by apply Hall.
  - exact Hkeys.
  - destruct (error_counts _ !! "unknown") as [n|] eqn:Hn; [| reflexivity].
    apply Hkeys in Hn as [Hin _]. unfold categories in Hin.
    repeat (apply elem_of_cons in Hin as [Hin | Hin]; [discriminate |]).
    by apply elem_of_nil in Hin.
Qed.

(** X8. Validating a record that builds twice in a row flags it the second
    time: the second result carries the duplicate error, is not valid, and
    the tracking set is the one the first call left. *)
Theorem same_record_twice (seen : gset duplicate_key) (d : dict) (inv : Invoice) :
  Invoice_new d = Ok inv ->
  let second := validate (validate seen d).2 d in
  emits duplicate_tag (errors second.1) = true /\
  is_valid second.1 = false /\
  second.2 = (validate seen d).2.
Proof.
  intros H second. subst second.
  assert (Hin : key_of inv ∈ (validate seen d).2).
  { apply validate_seen_elem. right. eauto. }
  assert (Hdup : emits duplicate_tag (errors (validate (validate seen d).2 d).1) = true).
  { rewrite (validate_emits_duplicate _ d inv H). by apply bool_decide_eq_true. }
  split; [exact Hdup |]. split.
  - destruct (is_valid (validate (validate seen d).2 d).1) eqn:Hv; [| reflexivity].
    apply validate_is_valid in Hv. rewrite Hv in Hdup. discriminate.
  - rewrite (validate_seen (validate seen d).2 d), H.
    apply subseteq_union_1_L. by apply singleton_subseteq_l.
Qed.

(** *** Counting the tracking set *)

Lemma built_count_cons (d : dict) (l : list dict) :
  built_count (d :: l) =
  ((if is_ok (Invoice_new d) then 1 else 0) + built_count l)%nat.
Proof.
  unfold built_count. rewrite filter_cons.
  destruct (decide (is_ok (Invoice_new d) = true)) as [H|H].
  - by rewrite H.
  - by destruct (is_ok (Invoice_new d)).
Qed.

Lemma flagged_count_cons (r : ValidationResult) (rs : list ValidationResult) :
  flagged_count (r :: rs) =
  ((if emits duplicate_tag (errors r) then 1 else 0) + flagged_count rs)%nat.
Proof.
  unfold flagged_count. rewrite filter_cons.
  destruct (decide (emits duplicate_tag (errors r) = true)) as [H|H].
  - by rewrite H.
  - by destruct (emits duplicate_tag (errors r)).
Qed.

Lemma count_step (a b c e : nat) :
  (a + b = c + e -> a + (1 + b) = c + (1 + e))%nat.
Proof. lia. Qed.

Lemma count_step_new (a b c e : nat) :
  (a + b = 1 + c + e -> a + (0 + b) = c + (1 + e))%nat.
Proof. lia. Qed.

Lemma tracking_count (seen : gset duplicate_key) (l : list dict) :
  (size (seen_after seen l) + flagged_count (in_order seen l) =
   size seen + built_count l)%nat.
Proof.
  revert seen. induction l as [|d l IH]; intros seen.
  - cbn [in_order]. unfold seen_after, flagged_count, built_count. simpl. lia.
  - change (seen_after seen (d :: l)) with (seen_after (validate seen d).2 l).
    cbn [in_order]. rewrite flagged_count_cons, built_count_cons.
    specialize (IH (validate seen d).2). rewrite validate_seen in IH |- *.
    destruct (Invoice_new d) as [inv|e] eqn:H.
    + rewrite (validate_emits_duplicate seen d inv H). cbn [is_ok].
      destruct (bool_decide_reflect (key_of inv ∈ seen)) as [Hin|Hout].
      * rewrite (subseteq_union_1_L {[key_of inv]} seen) in IH |- *
          by (by apply singleton_subseteq_l).
        apply count_step, IH.
      * rewrite size_union, size_singleton in IH by (by apply disjoint_singleton_l).
        apply count_step_new, IH.
    + rewrite (validate_Invalid seen d e H). cbn [fst errors is_ok].
      change (emits duplicate_tag [_]) with false. exact IH.
Qed.

(** X9. At the end of a batch the size of the tracking set plus the number
    of results flagged as duplicates is the number of records that built:
    the set holds one key per built record that was not flagged. *)
Theorem batch_tracking_count (seen : gset duplicate_key) (invoices : list dict) :
  (size (validate_batch seen invoices).2 +
   flagged_count (results (validate_batch seen invoices).1) =
   built_count invoices)%nat.
Proof.
  rewrite validate_batch_results.
  assert (Hs : (validate_batch seen invoices).2 = seen_after ∅ invoices).
  { unfold validate_batch. by rewrite validate_loop_spec. }
  rewrite Hs, tracking_count, size_empty. reflexivity.
Qed.

(** *** Growth of the tracking set *)

Lemma seen_after_grows (seen : gset duplicate_key) (l : list dict) :
  seen ⊆ seen_after seen l.
Proof. intros k Hk. apply seen_after_elem. by left. Qed.

(** X10. [validate] never takes a key out of the tracking set and adds at most
    the key of the record; a record whose key is in the set stays flagged
    whatever is validated in between. *)
Theorem tracking_only_grows (seen : gset duplicate_key) (d : dict) :
  seen ⊆ (validate seen d).2 /\
  ((validate seen d).2 = seen \/
   exists inv, Invoice_new d = Ok inv /\ (validate seen d).2 = {[key_of inv]} ∪ seen) /\
  (forall l, seen ⊆ seen_after seen l) /\
  (forall inv l, Invoice_new d = Ok inv -> key_of inv ∈ seen ->
     emits duplicate_tag (errors (validate (seen_after seen l) d).1) = true).
Proof.
  split; [| split; [| split]].
  - intros k Hk. apply validate_seen_elem. by left.
  - rewrite validate_seen. destruct (Invoice_new d) as [inv|e]; [right; eauto | by left].
  - intros l. apply seen_after_grows.
  - intros inv l H Hin. rewrite (validate_emits_duplicate _ d inv H).
    apply bool_decide_eq_true. by apply seen_after_grows.
Qed.

(** X11. For every result of a batch, [is_valid] holds exactly when the
    error list is empty, on the schema-error path as on the rule path. *)
Theorem batch_valid_iff_no_errors (seen : gset duplicate_key) (invoices : list dict)
    (r : ValidationResult) :
  r ∈ results (validate_batch seen invoices).1 ->
  (is_valid r = true <-> errors r = []).
Proof.
  rewrite validate_batch_results. intros Hr.
  pose proof (in_order_is_valid ∅ invoices) as Hall.
  rewrite Forall_forall in Hall. by apply Hall.
Qed.

(** X12. A record whose [invoice_number], [seller_name] or [buyer_name] is
    the empty text does not build: the result is the single [schema_error]
    and carries no [missing_field] error. *)
Theorem empty_name_is_schema_error (seen : gset duplicate_key) (d : dict)
    (k : string) (v : value) :
  k ∈ ["invoice_number"; "seller_name"; "buyer_name"] ->
  d !! k = Some v -> lax_str v = Some EmptyString ->
  exists e,
    validate seen d =
      (mkResult (id_of d) false ["schema_error: " +:+ str_validation_error e], seen) /\
    emits "missing_field" (errors (validate seen d).1) = false.
Proof.
  intros Hk Hd Hv. destruct (empty_name_refused d k v Hk Hd Hv) as [e He].
  exists e. rewrite (validate_Invalid seen d e He). split; reflexivity.
Qed.

(** A record without an [invoice_date] that coerces to a date gets the
    single [schema_error]. *)
Lemma unreadable_date_is_schema_error (seen : gset duplicate_key) (d : dict) :
  match d !! "invoice_date" with
  | Some v => lax_date v = None
  | None => True
  end ->
  exists e,
    validate seen d =
      (mkResult (id_of d) false ["schema_error: " +:+ str_validation_error e], seen).
Proof.
  intros Hd. destruct (unreadable_date_refused d Hd) as [e He].
  exists e. by apply validate_Invalid.
Qed.

(** X13. The results of the first records of a batch do not depend on the
    records after them, nor on the tracking set before the call. *)
Theorem batch_prefix_stable (s1 s2 : gset duplicate_key) (l1 l2 : list dict) :
  take (List.length l1) (results (validate_batch s1 (l1 ++ l2)).1) =
  results (validate_batch s2 l1).1.
Proof.
  rewrite !validate_batch_results, in_order_app.
  rewrite <- (in_order_length ∅ l1). apply take_app_length.
Qed.

End WithPydantic.
End ValidatorMore.

(** ** More on the extractors *)

Module ExtractorMore.
Import Py Schema Validator BatchSpec Patterns Extractor Directory.
Import ExtractSpec ValidatorFacts ValidatorMore ExtractorFacts.

Lemma split_head_append (c : ascii) (s rest : string) :
  split_head c (s +:+ String c rest) = split_head c s.
Proof.
  induction s as [|a s IH].
  - change (EmptyString +:+ String c rest) with (String c rest).
    cbn [split_head]. by rewrite Ascii.eqb_refl.
  - rewrite append_cons. cbn [split_head]. by rewrite IH.
Qed.

(** X16. The text of a [ValidationError] is read back by the batch
    counter: its category is the error type up to its first colon, the
    error type itself when it has none, never [unknown]. [to_dict] has the
    two keys [error_type] and [message]. *)
Theorem ValidationError_str_category (e : ValidationErrorClass.ValidationError) :
  Validator.error_type (ValidationErrorClass.__str__ e) =
    split_head ":" (ValidationErrorClass.error_type e) /\
  (contains ":" (ValidationErrorClass.error_type e) = false ->
   Validator.error_type (ValidationErrorClass.__str__ e) =
     ValidationErrorClass.error_type e) /\
  ValidationErrorClass.to_dict e !! "error_type" =
    Some (ValidationErrorClass.error_type e) /\
  ValidationErrorClass.to_dict e !! "message" = Some (ValidationErrorClass.message e) /\
  dom (ValidationErrorClass.to_dict e) = {["error_type"; "message"]}.
Proof.
  destruct e as [t m]. unfold ValidationErrorClass.__str__, ValidationErrorClass.to_dict.
  cbn [ValidationErrorClass.error_type ValidationErrorClass.message].
  change (": " +:+ m) with (String ":" (" " +:+ m)).
  split; [| split; [| split; [| split]]].
  - unfold Validator.error_type. by rewrite contains_append_sep, split_head_append.
  - intros H. unfold Validator.error_type.
    by rewrite contains_append_sep, split_head_append_sep.
  - by rewrite lookup_insert_ne, lookup_insert_eq.
  - by rewrite lookup_insert_eq.
  - rewrite !dom_insert_L, dom_empty_L. set_solver.
Qed.

Section WithLibrary.
Context {T : Tables} {L : Library} {I : Interpreter}.

(** X17. The text extractors share one loop: the answer is [None] exactly
    when no pattern of the table matches; otherwise it is what [str.strip]
    makes of group 1 of the first pattern that matches, whatever the
    patterns after it would find. *)
Theorem first_match_spec (patterns : list (string -> option string)) (text : string) :
  (first_match patterns text = None <-> Forall (fun p => p text = None) patterns) /\
  (forall r, first_match patterns text = Some r <->
     exists before p after g,
       patterns = before ++ p :: after /\
       Forall (fun q => q text = None) before /\
       p text = Some g /\ r = strip g).
Proof.
  split; [apply first_match_None |].
  induction patterns as [|p ps IH]; intros r.
  - split; [discriminate |]. intros (before & p & after & g & H & _).
    by destruct before.
  - cbn [first_match]. destruct (p text) as [g|] eqn:Hp.
    + split.
      * intros [= <-]. exists [], p, ps, g. repeat split; [constructor | exact Hp].
      * intros (before & q & after & g' & Heq & Hb & Hq & ->).
        destruct before as [|p' before].
        -- injection Heq as <- <-. congruence.
        -- injection Heq as <- _. inversion Hb; subst. congruence.
    + rewrite IH. split.
      * intros (before & q & after & g & -> & Hb & Hq & Hr).
        exists (p :: before), q, after, g. repeat split; try assumption.
        by constructor.
      * intros (before & q & after & g & Heq & Hb & Hq & Hr).
        destruct before as [|p' before].
        -- injection Heq as <- <-. congruence.
        -- injection Heq as <- ->. inversion Hb; subst.
           exists before, q, after, g. auto.
Qed.

(** *** Line items *)

Lemma row_fields_Some (r0 r1 r2 r3 description : string)
    (quantity unit_price line_total : float) :
  row_fields (r0, r1, r2, r3) = Some (description, quantity, unit_price, line_total) ->
  description = strip r0 /\
  float_of_str (remove_char "," r1) = Some quantity /\
  float_of_str (remove_char "," r2) = Some unit_price /\
  float_of_str (remove_char "," r3) = Some line_total.
Proof.
  unfold row_fields.
  destruct (float_of_str (remove_char "," r1)); [| discriminate].
  destruct (float_of_str (remove_char "," r2)); [| discriminate].
  destruct (float_of_str (remove_char "," r3)); [| discriminate].
  by intros [= <- <- <- <-].
Qed.

Lemma sound_item_more_rows (m : nat) (rows rows' : list (string * string * string * string))
    (item : dict) :
  rows ⊆ rows' -> sound_item m rows item -> sound_item m rows' item.
Proof.
  intros Hsub (r0 & r1 & r2 & r3 & q & u & t & Hin & H).
  exists r0, r1, r2, r3, q, u, t. split; [by apply Hsub | exact H].
Qed.

Lemma collect_rows_sound (min_len : nat) (rows all : list (string * string * string * string))
    (acc : list dict) :
  rows ⊆ all ->
  Forall (sound_item min_len all) acc ->
  Forall (sound_item min_len all) (collect_rows min_len rows acc).
Proof.
  revert acc. induction rows as [|row rows IH]; intros acc Hsub Hacc; [exact Hacc |].
  assert (Hrows : rows ⊆ all).
  { intros x Hx. apply Hsub. by right. }
  assert (Hrow_in : row ∈ all).
  { apply Hsub. by left. }
  cbn [collect_rows].
  destruct (row_fields row) as [[[[description quantity] unit_price] line_total]|] eqn:Hrow;
    [| by apply IH].
  destruct (nonempty description && (min_len <=? len description)%nat
            && fgt quantity zero) eqn:Hcond; [| by apply IH].
  apply andb_true_iff in Hcond as [Hcond Hq]. apply andb_true_iff in Hcond as [Hne Hlen].
  apply IH; [exact Hrows |]. apply Forall_app. split; [exact Hacc |].
  constructor; [| constructor].
  destruct row as [[[r0 r1] r2] r3].
  apply row_fields_Some in Hrow as (-> & H1 & H2 & H3).
  exists r0, r1, r2, r3, quantity, unit_price, line_total.
  split; [exact Hrow_in |]. split; [reflexivity |].
  split; [by destruct (strip r0) |].
  split; [by apply Nat.leb_le |]. auto.
Qed.

Lemma collect_rows_length (min_len : nat) (rows : list (string * string * string * string))
    (acc : list dict) :
  (List.length (collect_rows min_len rows acc) <= List.length acc + List.length rows)%nat.
Proof.
  revert acc. induction rows as [|row rows IH]; intros acc; cbn [collect_rows List.length].
  - lia.
  - destruct (row_fields row) as [[[[description quantity] unit_price] line_total]|];
      [| specialize (IH acc); lia].
    destruct (_ && _ && _); [| specialize (IH acc); lia].
    specialize (IH (acc ++ [item_dict description quantity unit_price line_total])).
    rewrite length_app in IH. cbn [List.length] in IH. lia.
Qed.

Lemma line_item_entry_sound (m : nat) (rows : list (string * string * string * string))
    (item : dict) :
  sound_item m rows item -> line_item_entry item = VDict item.
Proof. intros (r0 & r1 & r2 & r3 & q & u & t & _ & -> & _). reflexivity. Qed.

(** X19. [extract_line_items] returns at most ten entries. Each is read
    from one of the first ten rows found, below the table header or, when
    there is no header or nothing came of the rows below it, in the whole
    text: the description is the stripped first column, not empty (and at
    least three characters long for rows of the whole text), the three
    numbers are the other columns parsed with their commas removed, and the
    quantity is above 0. The record assembler copies the entries
    unchanged. *)
Theorem extract_line_items_sound (text : string) :
  let in_text := take 10 (line_item_pattern_findall text) in
  let below (e : nat) := take 10 (line_item_pattern_findall (slice_from e text)) in
  (List.length (extract_line_items text) <= 10)%nat /\
  (table_pattern_end text = None ->
   Forall (sound_item 3 in_text) (extract_line_items text)) /\
  (forall e, table_pattern_end text = Some e ->
     (extract_line_items text <> [] /\
      extract_line_items text = collect_rows 0 (below e) [] /\
      Forall (sound_item 0 (below e)) (extract_line_items text)) \/
     (collect_rows 0 (below e) [] = [] /\
      Forall (sound_item 3 in_text) (extract_line_items text))) /\
  map line_item_entry (extract_line_items text) = VDict <$> extract_line_items text.
Proof.
  intros in_text below.
  assert (Hlen : forall m rows,
            (List.length (collect_rows m (take 10 rows) []) <= 10)%nat).
  { intros m rows. pose proof (collect_rows_length m (take 10 rows) []) as H.
    rewrite length_take in H. cbn [List.length] in H. lia. }
  assert (Hsound : forall m rows, Forall (sound_item m rows) (collect_rows m rows [])).
  { intros m rows. apply collect_rows_sound; [done | constructor]. }
  split; [| split; [| split]].
  - unfold extract_line_items. destruct (table_pattern_end text) as [e|].
    + destruct (collect_rows 0 _ []) as [|item items] eqn:Hc; [apply Hlen |].
      rewrite <- Hc. apply Hlen.
    + apply Hlen.
  - intros Hnone. unfold extract_line_items. rewrite Hnone. apply Hsound.
  - intros e He. unfold extract_line_items. rewrite He.
    destruct (collect_rows 0 (take 10 (line_item_pattern_findall (slice_from e text))) [])
      as [|item items] eqn:Hc.
    + right. split; [exact Hc | apply Hsound].
    + left. split; [discriminate |]. split; [by rewrite <- Hc |].
      rewrite <- Hc. apply Hsound.
  - assert (Hany : Forall (fun item => exists m rows, sound_item m rows item)
                     (extract_line_items text)).
    { unfold extract_line_items. destruct (table_pattern_end text) as [e|].
      - destruct (collect_rows 0 _ []) as [|item items] eqn:Hc.
        + eapply Forall_impl; [apply Hsound |]. cbv beta. eauto.
        + rewrite <- Hc. eapply Forall_impl; [apply Hsound |]. cbv beta. eauto.
      - eapply Forall_impl; [apply Hsound |]. cbv beta. eauto. }
    induction Hany as [|item items (m & rows & Hitem) _ IH]; [reflexivity |].
    cbn [map fmap list_fmap]. rewrite (line_item_entry_sound m rows item Hitem).
    f_equal. exact IH.
Qed.

(** *** Records, folders and the way to the validator *)

Lemma extract_invoice_from_text_id (text : string) (invoice_id : option string)
    (d : dict) :
  extract_invoice_from_text text invoice_id = Return d ->
  d !! "invoice_id" =
    match invoice_id with
    | Some (String a s) => Some (VStr (String a s))
    | _ => None
    end /\
  dom d = list_to_set invoice_fields ∪
          match invoice_id with
          | Some (String a s) => {["invoice_id"]}
          | _ => ∅
          end.
Proof.
  destruct (table_amount_returns NET_TOTAL_PATTERNS text) as [net Hnet].
  destruct (table_amount_returns TAX_AMOUNT_PATTERNS text) as [tax Htax].
  destruct (table_amount_returns GROSS_TOTAL_PATTERNS text) as [gross Hgross].
  unfold extract_invoice_from_text.
  assert (Hn : extract_net_total text = Return net) by exact Hnet.
  assert (Ht : extract_tax_amount text = Return tax) by exact Htax.
  assert (Hg : extract_gross_total text = Return gross) by exact Hgross.
  rewrite Hn, Ht, Hg. cbv zeta.
  change (mbind ?k (Return ?a)) with (k a). cbv beta.
  destruct (date_field (extract_date text None)) as [invoice_date|e]; [| discriminate].
  change (mbind ?k (Return ?a)) with (k a). cbv beta.
  destruct (date_field (extract_due_date text)) as [due_date|e]; [| discriminate].
  change (mbind ?k (Return ?a)) with (k a). cbv beta.
  destruct invoice_id as [[|a s]|]; intros [= <-]; unfold dict.
  - split; [reflexivity |]. rewrite !dom_insert_L, dom_empty_L, union_empty_r_L.
    reflexivity.
  - split; [apply lookup_insert_eq |].
    rewrite !dom_insert_L, dom_empty_L, (union_comm_L {["invoice_id"]}). reflexivity.
  - split; [reflexivity |]. rewrite !dom_insert_L, dom_empty_L, union_empty_r_L.
    reflexivity.
Qed.

Section Folder.
Variable stem : string -> string.

Lemma extract_invoices_loop_spec (pdf_texts : list (string * string)) (acc : list dict) :
  extract_invoices_loop stem pdf_texts acc = acc ++ omap (extracted stem) pdf_texts.
Proof.
  revert acc. induction pdf_texts as [|[filename text] rest IH]; intros acc.
  - cbn [extract_invoices_loop omap list_omap]. by rewrite app_nil_r.
  - cbn [extract_invoices_loop omap list_omap]. unfold extracted at 1. cbn [fst snd].
    destruct (extract_invoice_from_text text (Some (stem filename))) as [d|e].
    + by rewrite IH, <- app_assoc.
    + apply IH.
Qed.

Lemma omap_length {A B : Type} (f : A -> option B) (l : list A) :
  (List.length (omap f l) <= List.length l)%nat /\
  (List.length (omap f l) = List.length l <-> Forall (fun a => is_Some (f a)) l).
Proof.
  induction l as [|a l [IHle IHeq]]; cbn [omap list_omap List.length].
  - split; [lia |]. split; [constructor | reflexivity].
  - destruct (f a) as [b|] eqn:Hf; cbn [List.length].
    + split; [lia |]. split.
      * intros H. constructor; [by rewrite Hf | apply IHeq; lia].
      * inversion 1; subst. f_equal. by apply IHeq.
    + split; [lia |]. split; [lia |].
      inversion 1 as [|? ? [b Hb]]; subst. congruence.
Qed.

(** X20. The directory loop returns, in the order of the listing, the
    records of the documents whose extraction returns, each extracted
    under the stem of its file name. A document is left out exactly when
    its extraction raises, which is when dateutil raises something other
    than the two exceptions [parse_date] catches on one of its date texts:
    every document is kept exactly when that happens for none of them. *)
Theorem extract_invoices_from_directory_drops_raising
    (pdf_texts : list (string * string)) :
  extract_invoices_from_directory stem pdf_texts =
    omap (fun ft => match extract_invoice_from_text ft.2 (Some (stem ft.1)) with
                    | Return d => Some d
                    | Raise _ => None
                    end) pdf_texts /\
  (List.length (extract_invoices_from_directory stem pdf_texts)
   <= List.length pdf_texts)%nat /\
  (List.length (extract_invoices_from_directory stem pdf_texts) = List.length pdf_texts
   <-> Forall (fun ft => date_parses (extract_date ft.2 None) /\
                         date_parses (extract_due_date ft.2)) pdf_texts) /\
  (forall d, d ∈ extract_invoices_from_directory stem pdf_texts ->
     exists filename text,
       (filename, text) ∈ pdf_texts /\
       extract_invoice_from_text text (Some (stem filename)) = Return d /\
       forall a s, stem filename = String a s ->
                   d !! "invoice_id" = Some (VStr (stem filename))).
Proof.
  unfold extract_invoices_from_directory. rewrite extract_invoices_loop_spec.
  cbn [app]. split; [reflexivity |].
  destruct (omap_length (extracted stem) pdf_texts) as [Hle Heq].
  split; [exact Hle |]. split.
  - rewrite Heq. apply Forall_iff. intros [filename text]. cbn [fst snd].
    rewrite <- (extraction_returns_iff text (Some (stem filename))).
    unfold extracted. cbn [fst snd].
    destruct (extract_invoice_from_text text (Some (stem filename))) as [d|e]; split.
    + eauto.
    + eauto.
    + intros [d Hd]. discriminate.
    + intros [d Hd]. discriminate.
  - intros d Hd. apply list_elem_of_omap in Hd as ([filename text] & Hin & Hex).
    unfold extracted in Hex. cbn [fst snd] in Hex.
    destruct (extract_invoice_from_text text (Some (stem filename))) as [d'|e] eqn:Hret;
      [| discriminate].
    injection Hex as ->. exists filename, text. split; [exact Hin |].
    split; [exact Hret |]. intros a s Hstem.
    destruct (extract_invoice_from_text_id _ _ _ Hret) as [Hid _].
    by rewrite Hid, Hstem.
Qed.

End Folder.

Section WithPydantic.
Context {P : Pydantic}.

Lemma validate_invoice_id (seen : gset duplicate_key) (d : dict) :
  invoice_id (validate seen d).1 = id_of d.
Proof.
  destruct (Invoice_new d) as [inv|e] eqn:H.
  - by rewrite (validate_Ok seen d inv H).
  - by rewrite (validate_Invalid seen d e H).
Qed.

(** X21. The record extracted from a text has the fields of the invoice
    model and, when an identifier was given, [invoice_id], and no other
    key. The result of validating it is named by that identifier, else by
    the extracted invoice number, else by ["UNKNOWN"]. There is such a
    record exactly when dateutil, on the date texts found, reads them or
    raises what [parse_date] catches. *)
Theorem extracted_record_identity (seen : gset duplicate_key) (text : string)
    (id : option string) :
  ((exists d, extract_invoice_from_text text id = Return d) <->
   date_parses (extract_date text None) /\ date_parses (extract_due_date text)) /\
  forall d,
    extract_invoice_from_text text id = Return d ->
    dom d = list_to_set invoice_fields ∪
            match id with
            | Some (String a s) => {["invoice_id"]}
            | _ => ∅
            end /\
    invoice_id (validate seen d).1 =
      VStr match id with
           | Some (String a s) => String a s
           | _ => str_or (extract_invoice_number text) "UNKNOWN"
           end.
Proof.
  split; [apply extraction_returns_iff |].
  intros d Hd.
  destruct (extract_invoice_from_text_id text id d Hd) as (Hid & Hdom).
  destruct (extract_invoice_from_text_fields text id d Hd)
    as (_ & _ & _ & _ & _ & _ & _ & _ & _ & _ & Hnum & _).
  split; [exact Hdom |].
  rewrite validate_invoice_id. unfold id_of, get. unfold dict in Hid, Hnum.
  rewrite Hid, Hnum.
  by destruct id as [[|a s]|].
Qed.

(** X22. When no date is found in a text, or the one found does not parse,
    and pydantic takes [None] for no date, the extracted record is answered
    with the single [schema_error] and the tracking set stays as it was.
    (The record exists when the due date found, if any, does not make
    dateutil raise something [parse_date] does not catch.) *)
Theorem extracted_without_date_is_schema_error (seen : gset duplicate_key)
    (text : string) (id : option string) :
  lax_date VNone = None ->
  date_field (extract_date text None) = Return VNone ->
  (date_parses (extract_due_date text) ->
   exists d, extract_invoice_from_text text id = Return d) /\
  forall d,
    extract_invoice_from_text text id = Return d ->
    exists e,
      validate seen d =
        (mkResult (id_of d) false ["schema_error: " +:+ str_validation_error e], seen).
Proof.
  intros Hlax Hdate. split.
  - intros Hdue. apply extraction_returns_iff. split; [| exact Hdue].
    apply date_field_returns. eauto.
  - intros d Hd.
    destruct (extract_invoice_from_text_fields text id d Hd)
      as (net & tax & gross & vdate & vdue & _ & _ & _ & Hvdate & _ & _ & Hfield & _).
    rewrite Hdate in Hvdate. injection Hvdate as <-.
    destruct (unreadable_date_refused d) as [e He]; [by rewrite Hfield |].
    exists e. by apply validate_Invalid.
Qed.

End WithPydantic.
End WithLibrary.
End ExtractorMore.

(** ** The further properties at the sample records *)

Module ExtraWitnesses.
Import Py Interpreters Schema Validator BatchSpec Patterns Extractor Directory.
Import ExtraSpec ExtractSpec ValidatorMore ExtractorMore Samples MoreSamples.

Lemma built_invoice_completeness_witness :
  Invoice_new inv_blank_number = Ok built_blank_number /\
  _validate_completeness built_blank_number = ["missing_field: invoice_number"].
Proof.
  assert (H : Invoice_new inv_blank_number = Ok built_blank_number)
    by (vm_compute; reflexivity).
  split; [exact H |].
  destruct (built_invoice_completeness _ _ H) as (_ & _ & _ & Hc).
  rewrite Hc. vm_compute. reflexivity.
Defined.

Lemma built_invoice_format_silent_witness :
  Invoice_new inv_001 = Ok built_001 /\
  emits "format_error" (errors (validate ∅ inv_001).1) = false.
Proof.
  assert (H : Invoice_new inv_001 = Ok built_001) by (vm_compute; reflexivity).
  split; [exact H |]. exact (proj2 (built_invoice_format_silent ∅ _ _ H)).
Defined.

Lemma built_invoice_currency_witness :
  Invoice_new inv_001 = Ok built_001 /\ currency built_001 ∈ ["EUR"; "USD"; "INR"].
Proof.
  assert (H : Invoice_new inv_001 = Ok built_001) by (vm_compute; reflexivity).
  split; [exact H |]. exact (proj1 (built_invoice_currency _ _ H)).
Defined.

Lemma unlisted_currency_refused_witness :
  required lax_str inv_xyz "currency" = Ok "XYZ" /\
  exists e, Invoice_new inv_xyz = Invalid e /\
    validate ∅ inv_xyz =
      (mkResult (id_of inv_xyz) false ["schema_error: " +:+ str_validation_error e], ∅).
Proof.
  assert (H : required lax_str inv_xyz "currency" = Ok "XYZ")
    by (vm_compute; reflexivity).
  split; [exact H |]. apply (unlisted_currency_refused ∅ inv_xyz "XYZ" H).
  vm_compute. intros Hin.
  repeat (apply elem_of_cons in Hin as [Hin | Hin]; [discriminate |]).
  by apply elem_of_nil in Hin.
Defined.


Lemma no_line_items_totals_witness :
  Invoice_new inv_no_items = Ok built_no_items /\
  emits totals_tag (errors (validate ∅ inv_no_items).1) = true.
Proof.
  assert (H : Invoice_new inv_no_items = Ok built_no_items)
    by (vm_compute; reflexivity).
  split; [exact H |].
  rewrite (no_line_items_totals ∅ _ _ H eq_refl). vm_compute. reflexivity.
Defined.

Lemma same_record_twice_witness :
  Invoice_new inv_001 = Ok built_001 /\
  emits duplicate_tag (errors (validate (validate ∅ inv_001).2 inv_001).1) = true.
Proof.
  assert (H : Invoice_new inv_001 = Ok built_001) by (vm_compute; reflexivity).
  split; [exact H |]. exact (proj1 (same_record_twice ∅ _ _ H)).
Defined.

Lemma batch_valid_iff_no_errors_witness :
  (validate ∅ inv_001).1 ∈ results (validate_batch ∅ [inv_001]).1 /\
  (is_valid (validate ∅ inv_001).1 = true <-> errors (validate ∅ inv_001).1 = []).
Proof.
  assert (H : (validate ∅ inv_001).1 ∈ results (validate_batch ∅ [inv_001]).1).
  { rewrite ValidatorFacts.validate_batch_results. cbn [in_order]. left. }
  split; [exact H |]. exact (batch_valid_iff_no_errors ∅ [inv_001] _ H).
Defined.

Lemma empty_name_is_schema_error_witness :
  inv_empty_seller !! "seller_name" = Some (VStr "") /\
  exists e,
    validate ∅ inv_empty_seller =
      (mkResult (id_of inv_empty_seller) false
         ["schema_error: " +:+ str_validation_error e], ∅) /\
    emits "missing_field" (errors (validate ∅ inv_empty_seller).1) = false.
Proof.
  assert (H : inv_empty_seller !! "seller_name" = Some (VStr ""))
    by (vm_compute; reflexivity).
  split; [exact H |].
  apply (empty_name_is_schema_error ∅ inv_empty_seller "seller_name" (VStr ""));
    [| exact H | reflexivity].
  right. left.
Defined.

Lemma extracted_record_identity_witness :
  exists d,
    extract_invoice_from_text (T := LabelTables) (L := Plain) sample_text (Some "doc-1")
      = Return d /\
    invoice_id (validate ∅ d).1 = VStr "doc-1".
Proof.
  destruct (extracted_record_identity (P := Json) (T := LabelTables) (L := Plain)
              ∅ sample_text (Some "doc-1")) as [Hex Hid].
  destruct (proj2 Hex) as [d Hd].
  - split; vm_compute; exact I.
  - exists d. split; [exact Hd |]. exact (proj2 (Hid d Hd)).
Defined.

Lemma extracted_without_date_is_schema_error_witness :
  date_field (L := Plain)
    (extract_date (T := LabelTables) undated_text None) = Return VNone /\
  exists d e,
    extract_invoice_from_text (T := LabelTables) (L := Plain) undated_text None
      = Return d /\
    validate ∅ d =
      (mkResult (id_of d) false ["schema_error: " +:+ str_validation_error e], ∅).
Proof.
  assert (H : date_field (L := Plain)
                (extract_date (T := LabelTables) undated_text None) = Return VNone)
    by (vm_compute; reflexivity).
  split; [exact H |].
  destruct (extracted_without_date_is_schema_error (P := Json) (T := LabelTables)
              (L := Plain) ∅ undated_text None eq_refl H) as [Hex Hall].
  destruct Hex as [d Hd]; [vm_compute; exact I |].
  destruct (Hall d Hd) as [e He]. exists d, e. split; [exact Hd | exact He].
Defined.

(** A folder of two documents read with a dateutil that overflows on a long
    number: the document whose date line carries one is left out. *)
Example directory_drops_overflowing :
  List.length
    (extract_invoices_from_directory (T := LabelTables) (L := Overflowing)
       (fun name => name) [("a.pdf", sample_text); ("b.pdf", overflowing_text)])
  = 1%nat.
Proof. vm_compute. reflexivity. Qed.

End ExtraWitnesses.
